(** * go-pgproxy: the streaming query handler of [main.go]

    The development embeds [queryHandler] and [getColumnNames] of
    [src/main.go] together with the interface behaviour of the library
    objects they drive (the HTTP response writer, the gzip writer, the
    JSON encoder and decoder, the pgx cursor), and states the properties
    of the response stream over that embedding. *)

From Stdlib Require Import ZArith NArith Ascii String DecimalString.
From stdpp Require Import base list gmap strings.

#[local] Set Warnings "-register-all".

Local Open Scope string_scope.
Local Open Scope list_scope.

(** ** Results of fallible calls

    A Go call returning [(T, error)] is a [Result T]; an [error] is
    represented by the text its [Error()] method yields. *)

Inductive Result (A : Type) : Type :=
| Ok (a : A)
| Err (e : string).
Arguments Ok {A} a.
Arguments Err {A} e.

(** ** Bytes

    A Go [string] or [[]byte] is a Rocq [string]: a list of 8-bit
    characters. *)

Definition byte_val (c : ascii) : N := N_of_ascii c.

Definition LF : string := String (ascii_of_N 10) EmptyString.

Definition hexDigit (n : N) : ascii :=
  match n with
  | 0 => "0" | 1 => "1" | 2 => "2" | 3 => "3" | 4 => "4" | 5 => "5"
  | 6 => "6" | 7 => "7" | 8 => "8" | 9 => "9" | 10 => "a" | 11 => "b"
  | 12 => "c" | 13 => "d" | 14 => "e" | _ => "f"
  end%N%char.

(** ** JSON documents *)

Inductive Json : Type :=
| JNull
| JBool (b : bool)
| JNum (n : Z)
| JStr (s : string)
| JArr (elems : list Json)
| JObj (members : list (string * Json)).

(** *** [encoding/json]: string literals

    [escapeByte] is what the encoder appends for one byte below 0x80
    with HTML escaping on (the default of [json.NewEncoder]): the byte
    itself when it is in the safe set, a two-character escape for the
    quote, the backslash and the five named control characters, and
    [\u00XX] for the other control characters and for [<], [>], [&]. *)

Definition escapeByte (c : ascii) : string :=
  let n := byte_val c in
  if (n =? 34)%N then "\" +:+ String c EmptyString
  else if (n =? 92)%N then "\\"
  else if (n =? 8)%N then "\b"
  else if (n =? 12)%N then "\f"
  else if (n =? 10)%N then "\n"
  else if (n =? 13)%N then "\r"
  else if (n =? 9)%N then "\t"
  else if ((n <? 32) || (n =? 60) || (n =? 62) || (n =? 38))%N then
    "\u00" +:+ String (hexDigit (N.shiftr n 4)) (String (hexDigit (N.land n 15)) EmptyString)
  else String c EmptyString.

(** [utf8.DecodeRuneInString] on the bytes at the head of [s], for a
    head byte of 0x80 or more: the size of the well-formed encoding
    that starts there, or [0] when there is none (Go then reports
    [RuneError] with size 1). *)

Definition isCont (lo hi : N) (c : ascii) : bool :=
  ((lo <=? byte_val c) && (byte_val c <=? hi))%N.

(** Size of the encoding a lead byte announces and the range allowed
    for its second byte, from the tables [first] and [acceptRanges] of
    [unicode/utf8]; size 0 for a byte that cannot lead. *)

Definition leadClass (x : N) : nat * N * N :=
  (if (194 <=? x) && (x <=? 223) then (2%nat, 128, 191)
   else if x =? 224 then (3%nat, 160, 191)
   else if (225 <=? x) && (x <=? 236) then (3%nat, 128, 191)
   else if x =? 237 then (3%nat, 128, 159)
   else if (238 <=? x) && (x <=? 239) then (3%nat, 128, 191)
   else if x =? 240 then (4%nat, 144, 191)
   else if (241 <=? x) && (x <=? 243) then (4%nat, 128, 191)
   else if x =? 244 then (4%nat, 128, 143)
   else (0%nat, 0, 0))%N.

Definition runeSize (s : string) : nat :=
  match s with
  | EmptyString => 0
  | String s0 t =>
    let '(sz, lo, hi) := leadClass (byte_val s0) in
    match sz, t with
    | 2, String s1 _ => if isCont lo hi s1 then 2 else 0
    | 3, String s1 (String s2 _) =>
        if isCont lo hi s1 && isCont 128 191 s2 then 3 else 0
    | 4, String s1 (String s2 (String s3 _)) =>
        if isCont lo hi s1 && isCont 128 191 s2 && isCont 128 191 s3
        then 4 else 0
    | _, _ => 0
    end
  end.

(** The two code points the encoder escapes beyond ASCII: U+2028 and
    U+2029, encoded E2 80 A8 and E2 80 A9. *)

Definition lineSeparator (s : string) : option string :=
  match s with
  | String a (String b (String c _)) =>
      if ((byte_val a =? 226) && (byte_val b =? 128))%N then
        if (byte_val c =? 168)%N then Some "\u2028"
        else if (byte_val c =? 169)%N then Some "\u2029"
        else None
      else None
  | _ => None
  end.

Fixpoint takeBytes (n : nat) (s : string) : string :=
  match n, s with
  | S n', String c t => String c (takeBytes n' t)
  | _, _ => EmptyString
  end.

(** U+FFFD, encoded EF BF BD: what the encoder writes in place of a
    byte that does not begin a valid UTF-8 encoding.  The encoder
    writes the character itself; releases of [encoding/json] before the
    rewrite of its string encoder wrote a six-character escape
    instead. *)

Definition replacementChar : string :=
  String (ascii_of_N 239)
         (String (ascii_of_N 191) (String (ascii_of_N 189) EmptyString)).

(** The loop of [appendString]: [skip] counts the bytes that remain of
    a multi-byte encoding already emitted. *)

Fixpoint escapeFrom (skip : nat) (s : string) : string :=
  match s with
  | EmptyString => EmptyString
  | String c t =>
    match skip with
    | S k => escapeFrom k t
    | O =>
      if (byte_val c <? 128)%N then escapeByte c +:+ escapeFrom 0 t
      else
        match runeSize s with
        | O => replacementChar +:+ escapeFrom 0 t
        | S k =>
          match lineSeparator s with
          | Some esc => esc +:+ escapeFrom k t
          | None => takeBytes (S k) s +:+ escapeFrom k t
          end
        end
    end
  end.

Definition DQ : string := String (ascii_of_N 34) EmptyString.

Definition quote (s : string) : string := DQ +:+ escapeFrom 0 s +:+ DQ.

(** *** [encoding/json]: documents to bytes *)

Definition formatInt (n : Z) : string := NilZero.string_of_int (Z.to_int n).

Fixpoint render (j : Json) : string :=
  match j with
  | JNull => "null"
  | JBool true => "true"
  | JBool false => "false"
  | JNum n => formatInt n
  | JStr s => quote s
  | JArr elems => "[" +:+ String.concat "," (map render elems) +:+ "]"
  | JObj members =>
      "{" +:+
      String.concat ","
        (map (fun kv => quote (fst kv) +:+ ":" +:+ render (snd kv)) members)
      +:+ "}"
  end.

(** ** Go values handed to the encoder

    The dynamically typed values ([interface{}]) that reach
    [Encoder.Encode] in this program: the scalars a row carries, slices
    and string-keyed maps.  [GFloatNaN] is the [float64] NaN, which a
    [float8] column can hold and which the encoder refuses. *)

Inductive GoValue : Type :=
| GNil
| GBool (b : bool)
| GInt (n : Z)
| GString (s : string)
| GFloatNaN
| GSlice (elems : list GoValue)
| GMap (entries : list (string * GoValue)).

(** [sequence] stops at the first error, as the encoder does. *)

Fixpoint sequence {A : Type} (l : list (Result A)) : Result (list A) :=
  match l with
  | [] => Ok []
  | Err e :: _ => Err e
  | Ok a :: rest =>
      match sequence rest with
      | Ok l' => Ok (a :: l')
      | Err e => Err e
      end
  end.

(** Map keys are encoded in increasing byte order. *)

Fixpoint insertKey {A : Type} (kv : string * A) (l : list (string * A))
  : list (string * A) :=
  match l with
  | [] => [kv]
  | kv' :: rest =>
      if String.leb (fst kv) (fst kv') then kv :: l
      else kv' :: insertKey kv rest
  end.

Definition sortKeys {A : Type} (l : list (string * A)) : list (string * A) :=
  foldr insertKey [] l.

Definition keyed {A : Type} (kv : string * Result A) : Result (string * A) :=
  match snd kv with
  | Ok a => Ok (fst kv, a)
  | Err e => Err e
  end.

Fixpoint marshal (v : GoValue) : Result Json :=
  match v with
  | GNil => Ok JNull
  | GBool b => Ok (JBool b)
  | GInt n => Ok (JNum n)
  | GString s => Ok (JStr s)
  | GFloatNaN => Err "json: unsupported value: NaN"
  | GSlice elems =>
      match sequence (map marshal elems) with
      | Ok js => Ok (JArr js)
      | Err e => Err e
      end
  | GMap entries =>
      match sequence (map keyed
              (sortKeys (map (fun kv => (fst kv, marshal (snd kv))) entries))) with
      | Ok ms => Ok (JObj ms)
      | Err e => Err e
      end
  end.

(** [json.Marshal] followed by the newline [Encoder.Encode] appends. *)

Definition encodeLine (v : GoValue) : Result string :=
  match marshal v with
  | Ok j => Ok (render j +:+ LF)
  | Err e => Err e
  end.

(** ** The request

    [SQLQuery] is the structure the request body is decoded into. *)

Record SQLQuery : Type := { Query : string }.

(** A [context.Context]: [cancelAt = Some k] is a context whose
    cancellation signal fires once [k] rows have been pulled from a
    cursor ([k = 0]: before the first row); [None] never fires. *)

Record Context : Type := { cancelAt : option nat }.

Definition context_Background : Context := {| cancelAt := None |}.

Definition cancelled (ctx : Context) (pulled : nat) : bool :=
  match cancelAt ctx with
  | Some k => (k <=? pulled)%nat
  | None => false
  end.

(** [Body] is what [json.Decoder] finds at the head of the request
    body: [None] when no well-formed JSON value starts there. *)

Record Request : Type := {
  Method : string;
  Body : option Json;
  Ctx : Context
}.

(** *** [encoding/json]: decoding into [SQLQuery]

    Object keys are matched to the field tag [query] without regard to
    letter case. *)

Definition toLower (c : ascii) : ascii :=
  let n := byte_val c in
  if ((65 <=? n) && (n <=? 90))%N then ascii_of_N (n + 32) else c.

Fixpoint lowerString (s : string) : string :=
  match s with
  | EmptyString => EmptyString
  | String c t => String (toLower c) (lowerString t)
  end.

Definition matchesQuery (key : string) : bool :=
  String.eqb (lowerString key) "query".

Definition kindName (j : Json) : string :=
  match j with
  | JNull => "null"
  | JBool _ => "bool"
  | JNum _ => "number"
  | JStr _ => "string"
  | JArr _ => "array"
  | JObj _ => "object"
  end.

Definition typeError (j : Json) (target : string) : string :=
  "json: cannot unmarshal " +:+ kindName j +:+ " into Go " +:+ target.

(** One member of the body object: a string sets the field, [null]
    leaves it, any other value is a type error; the first error is kept
    and the remaining members are still read. *)

Definition decodeMember (acc : SQLQuery * option string) (kv : string * Json)
  : SQLQuery * option string :=
  let '(q, err) := acc in
  if matchesQuery (fst kv) then
    match snd kv with
    | JStr s => ({| Query := s |}, err)
    | JNull => (q, err)
    | j =>
        (q, match err with
            | Some e => Some e
            | None => Some (typeError j "struct field SQLQuery.query of type string")
            end)
    end
  else (q, err).

Definition Decode (body : option Json) (sqlQuery : SQLQuery) : Result SQLQuery :=
  match body with
  | None => Err "invalid character looking for beginning of value"
  | Some JNull => Ok sqlQuery
  | Some (JObj members) =>
      match foldl decodeMember (sqlQuery, None) members with
      | (q, None) => Ok q
      | (_, Some e) => Err e
      end
  | Some j => Err (typeError j "value of type main.SQLQuery")
  end.

(** ** The database cursor

    [FieldDescription] is [pgproto3.FieldDescription]. *)

Record FieldDescription : Type := {
  Name : string;
  TableOID : N;
  TableAttributeNumber : N;
  DataTypeOID : N;
  DataTypeSize : Z;
  TypeModifier : Z;
  Format : Z
}.

(** A row as the server delivers it: either its values decode, or
    [rows.Values()] fails on it. *)

Inductive DataRow : Type :=
| Decoded (values : list GoValue)
| Undecodable (err : string).

(** What the server answers to a query text that it accepts: the
    column descriptions, the rows in order, and the error that ends the
    result if there is one. *)

Record ResultSet : Type := {
  rs_fields : list FieldDescription;
  rs_rows : list DataRow;
  rs_err : option string
}.

Definition Database : Type := string -> Result ResultSet.

Record Rows : Type := {
  r_ctx : Context;
  r_fields : list FieldDescription;
  r_pending : list DataRow;
  r_tail : option string;
  r_current : option DataRow;
  r_err : option string;
  r_closed : bool;
  r_pulled : nat
}.

(** The cursor a successful [Query] returns. *)

Definition openRows (ctx : Context) (rs : ResultSet) : Rows :=
  {| r_ctx := ctx; r_fields := rs_fields rs; r_pending := rs_rows rs;
     r_tail := rs_err rs; r_current := None; r_err := None;
     r_closed := false; r_pulled := 0 |}.

Definition db_Query (db : Database) (ctx : Context) (sql : string) : Result Rows :=
  if cancelled ctx 0 then Err "context canceled"
  else
    match db sql with
    | Err e => Err e
    | Ok rs => Ok (openRows ctx rs)
    end.

Definition Rows_FieldDescriptions (r : Rows) : list FieldDescription := r_fields r.

Definition Rows_fatal (e : option string) (r : Rows) : Rows :=
  {| r_ctx := r_ctx r; r_fields := r_fields r; r_pending := r_pending r;
     r_tail := r_tail r; r_current := r_current r;
     r_err := match r_err r with Some e' => Some e' | None => e end;
     r_closed := true; r_pulled := r_pulled r |}.

Definition Rows_Close (r : Rows) : Rows := Rows_fatal None r.

Definition Rows_Next (r : Rows) : bool * Rows :=
  if r_closed r then (false, r)
  else if cancelled (r_ctx r) (r_pulled r) then
    (false, Rows_fatal (Some "context canceled") r)
  else
    match r_pending r with
    | [] => (false, Rows_fatal (r_tail r) r)
    | row :: rest =>
        (true,
         {| r_ctx := r_ctx r; r_fields := r_fields r; r_pending := rest;
            r_tail := r_tail r; r_current := Some row; r_err := r_err r;
            r_closed := false; r_pulled := S (r_pulled r) |})
    end.

Definition Rows_Values (r : Rows) : Result (list GoValue) * Rows :=
  if r_closed r then (Err "rows is closed", r)
  else
    match r_current r with
    | Some (Decoded values) => (Ok values, r)
    | Some (Undecodable e) => (Err e, Rows_fatal (Some e) r)
    | None => (Err "rows is closed", r)
    end.

Definition Rows_Err (r : Rows) : option string := r_err r.

(** ** The HTTP response

    What reaches the client in the response body is a sequence of
    chunks.  The output of the gzip writer is kept symbolic: the member
    header, deflate blocks that carry the given uncompressed bytes, the
    final deflate block, and the trailer (CRC-32 and length) computed
    over the given bytes.  [Plain] bytes are written to the connection
    as they are. *)

Inductive Chunk : Type :=
| Plain (bytes : string)
| GzHeader
| GzBlock (data : string)
| GzFinal (data : string)
| GzTrailer (data : string).

(** [http.ResponseWriter].  [rw_sent] is the status line and header
    block once they have gone out; [rw_conn = Some n] is a connection
    that takes [n] more writes and then fails, [None] one that takes
    every write. *)

Record ResponseWriter : Type := {
  rw_header : gmap string string;
  rw_sent : option (nat * gmap string string);
  rw_body : list Chunk;
  rw_conn : option nat
}.

Definition Header_Set (k v : string) (w : ResponseWriter) : ResponseWriter :=
  {| rw_header := <[k := v]> (rw_header w); rw_sent := rw_sent w;
     rw_body := rw_body w; rw_conn := rw_conn w |}.

Definition Header_Del (k : string) (w : ResponseWriter) : ResponseWriter :=
  {| rw_header := delete k (rw_header w); rw_sent := rw_sent w;
     rw_body := rw_body w; rw_conn := rw_conn w |}.

(** A second [WriteHeader] has no effect. *)

Definition WriteHeader (code : nat) (w : ResponseWriter) : ResponseWriter :=
  match rw_sent w with
  | Some _ => w
  | None =>
      {| rw_header := rw_header w; rw_sent := Some (code, rw_header w);
         rw_body := rw_body w; rw_conn := rw_conn w |}
  end.

Definition StatusOK : nat := 200.
Definition StatusBadRequest : nat := 400.
Definition StatusMethodNotAllowed : nat := 405.
Definition StatusInternalServerError : nat := 500.
Definition MethodPost : string := "POST".

(** [w.Write]: the first write sends the header block with status 200
    if none was sent. *)

Definition rw_Write (c : Chunk) (w : ResponseWriter) : option string * ResponseWriter :=
  let w := WriteHeader StatusOK w in
  match rw_conn w with
  | Some O => (Some "write: broken pipe", w)
  | Some (S n) =>
      (None, {| rw_header := rw_header w; rw_sent := rw_sent w;
                rw_body := rw_body w ++ [c]; rw_conn := Some n |})
  | None =>
      (None, {| rw_header := rw_header w; rw_sent := rw_sent w;
                rw_body := rw_body w ++ [c]; rw_conn := None |})
  end.

(** [http.Error]. *)

Definition http_Error (w : ResponseWriter) (error : string) (code : nat)
  : ResponseWriter :=
  let w := Header_Del "Content-Length" w in
  let w := Header_Set "Content-Type" "text/plain; charset=utf-8" w in
  let w := Header_Set "X-Content-Type-Options" "nosniff" w in
  let w := WriteHeader code w in
  snd (rw_Write (Plain (error +:+ LF)) w).

(** ** [compress/gzip]

    [gz_window] is the input the compressor holds and has not yet
    turned into a block; [gz_digest] is all the input so far, which the
    running CRC-32 and length summarise. *)

Record GzipWriter : Type := {
  gz_wroteHeader : bool;
  gz_window : string;
  gz_digest : string;
  gz_closed : bool;
  gz_err : option string
}.

Definition gzip_NewWriter : GzipWriter :=
  {| gz_wroteHeader := false; gz_window := EmptyString; gz_digest := EmptyString;
     gz_closed := false; gz_err := None |}.

(** ** The handler's state

    After the query has been accepted the handler works on three
    objects: the response writer, the gzip writer stacked on it and the
    cursor. *)

Record St : Type := {
  st_w : ResponseWriter;
  st_gz : GzipWriter;
  st_rows : Rows
}.

(** A statement either falls through with a value or executes
    [return]; the statements after a [return] are skipped. *)

Inductive Flow (A : Type) : Type :=
| Fall (a : A)
| Returned.
Arguments Fall {A} a.
Arguments Returned {A}.

Definition M (A : Type) : Type := St -> Flow A * St.

#[local] Instance M_ret : MRet M := fun A a st => (Fall a, st).

#[local] Instance M_bind : MBind M := fun A B k m st =>
  match m st with
  | (Fall a, st') => k a st'
  | (Returned, st') => (Returned, st')
  end.

Definition return_ {A : Type} : M A := fun st => (Returned, st).

Section Handler.

(** The compressor emits a block once it holds [blockSize] bytes. *)
Variable blockSize : nat.

(** The pool the handler queries. *)
Variable db : Database.

(** [compressor.Write]. *)

Definition flate_Write (p : string) (z : GzipWriter) (w : ResponseWriter)
  : GzipWriter * ResponseWriter :=
  let window := gz_window z +:+ p in
  if (blockSize <=? String.length window)%nat then
    let '(err, w) := rw_Write (GzBlock window) w in
    ({| gz_wroteHeader := gz_wroteHeader z; gz_window := EmptyString;
        gz_digest := gz_digest z; gz_closed := gz_closed z; gz_err := err |}, w)
  else
    ({| gz_wroteHeader := gz_wroteHeader z; gz_window := window;
        gz_digest := gz_digest z; gz_closed := gz_closed z; gz_err := None |}, w).

(** [gzip.Writer.Write]: a writer that has failed keeps failing; the
    member header goes out with the first write. *)

Definition gzip_Write (p : string) (z : GzipWriter) (w : ResponseWriter)
  : option string * GzipWriter * ResponseWriter :=
  match gz_err z with
  | Some e => (Some e, z, w)
  | None =>
    let '(err, z, w) :=
      if gz_wroteHeader z then (None, z, w)
      else
        let '(err, w) := rw_Write GzHeader w in
        (err,
         {| gz_wroteHeader := true; gz_window := gz_window z;
            gz_digest := gz_digest z; gz_closed := gz_closed z; gz_err := err |},
         w) in
    match err with
    | Some e => (Some e, z, w)
    | None =>
      let z := {| gz_wroteHeader := gz_wroteHeader z; gz_window := gz_window z;
                  gz_digest := gz_digest z +:+ p; gz_closed := gz_closed z;
                  gz_err := gz_err z |} in
      let '(z, w) := flate_Write p z w in
      (gz_err z, z, w)
    end
  end.

(** [gzip.Writer.Close]: flush what the compressor holds as the final
    block, then write the trailer.  A chunk stands for the bytes it
    carries, not for one call of [Write]: the compressor may hand the
    final block to the connection in several writes, and the model
    takes or refuses a chunk as a whole, so on a connection that fails
    while [Close] runs it does not tell which part of the final block
    was delivered. *)

Definition gzip_Close (z : GzipWriter) (w : ResponseWriter)
  : option string * GzipWriter * ResponseWriter :=
  match gz_err z with
  | Some e => (Some e, z, w)
  | None =>
    if gz_closed z then (None, z, w)
    else
      let z := {| gz_wroteHeader := gz_wroteHeader z; gz_window := gz_window z;
                  gz_digest := gz_digest z; gz_closed := true; gz_err := None |} in
      let '(err, z, w) :=
        if gz_wroteHeader z then (None, z, w)
        else gzip_Write EmptyString z w in
      match err with
      | Some e => (Some e, z, w)
      | None =>
        let '(err, w) := rw_Write (GzFinal (gz_window z)) w in
        let z := {| gz_wroteHeader := gz_wroteHeader z; gz_window := EmptyString;
                    gz_digest := gz_digest z; gz_closed := true; gz_err := err |} in
        match err with
        | Some e => (Some e, z, w)
        | None =>
          let '(err, w) := rw_Write (GzTrailer (gz_digest z)) w in
          (err,
           {| gz_wroteHeader := gz_wroteHeader z; gz_window := gz_window z;
              gz_digest := gz_digest z; gz_closed := true; gz_err := err |}, w)
        end
      end
  end.

(** ** The statements of the handler *)

Definition http_ErrorM (error : string) (code : nat) : M unit := fun st =>
  (Fall tt,
   {| st_w := http_Error (st_w st) error code; st_gz := st_gz st;
      st_rows := st_rows st |}).

(** [encoder.Encode(v)] with [encoder := json.NewEncoder(gz)]: nothing
    is written when the value cannot be marshalled; otherwise the line
    goes to the gzip writer in one [Write]. *)

Definition Encoder_Encode (v : GoValue) : M (option string) := fun st =>
  match encodeLine v with
  | Err e => (Fall (Some e), st)
  | Ok line =>
      let '(err, z, w) := gzip_Write line (st_gz st) (st_w st) in
      (Fall err, {| st_w := w; st_gz := z; st_rows := st_rows st |})
  end.

Definition rows_Next : M bool := fun st =>
  let '(more, r) := Rows_Next (st_rows st) in
  (Fall more, {| st_w := st_w st; st_gz := st_gz st; st_rows := r |}).

Definition rows_Values : M (Result (list GoValue)) := fun st =>
  let '(res, r) := Rows_Values (st_rows st) in
  (Fall res, {| st_w := st_w st; st_gz := st_gz st; st_rows := r |}).

Definition rows_Err : M (option string) := fun st =>
  (Fall (Rows_Err (st_rows st)), st).

(** [getColumnNames]: a slice of [len(columns)] empty strings, filled
    by index. *)

Definition getColumnNames (columns : list FieldDescription) : list string :=
  let names := replicate (length columns) EmptyString in
  foldl (fun names ic => <[fst ic := Name (snd ic)]> names) names
        (imap (fun i col => (i, col)) columns).

(** The [for rows.Next()] loop of [queryHandler].  [fuel] bounds the
    number of iterations; [streamRows] supplies one more than the
    number of rows the cursor can still deliver, which is enough for
    the loop to end by itself in every state (lemma [rowLoop_fuel]
    below: a larger supply never changes the result). *)

Fixpoint rowLoop (fuel : nat) : M unit :=
  match fuel with
  | O => mret tt
  | S fuel' =>
      more ← rows_Next;
      if (more : bool) then
        res ← rows_Values;
        match res with
        | Err err =>
            http_ErrorM ("Error reading row: " +:+ err) StatusInternalServerError;;
            return_
        | Ok values =>
            let row := GMap [("rows", GSlice [GSlice values])] in
            e ← Encoder_Encode row;
            match e with
            | Some err =>
                http_ErrorM ("Error encoding row: " +:+ err)
                            StatusInternalServerError;;
                return_
            | None => rowLoop fuel'
            end
        end
      else mret tt
  end.

Definition streamRows : M unit := fun st =>
  rowLoop (S (length (r_pending (st_rows st)))) st.

(** Lines 79 to 88 of [queryHandler]: the header record. *)

Definition writeHeaderRecord (columns : list string) : M unit :=
  let queryResponse :=
    GMap [("columns", GSlice (map GString columns)); ("rows", GSlice [])] in
  e ← Encoder_Encode queryResponse;
  match e with
  | Some err =>
      http_ErrorM ("Error encoding response: " +:+ err) StatusInternalServerError;;
      return_
  | None => mret tt
  end.

(** Lines 108 to 111: the final check of the cursor. *)

Definition checkErr : M unit :=
  e ← rows_Err;
  match e with
  | Some err =>
      http_ErrorM ("Query error: " +:+ err) StatusInternalServerError;;
      return_
  | None => mret tt
  end.

Definition streamResponse (columns : list string) : M unit :=
  writeHeaderRecord columns;;
  streamRows;;
  checkErr.

(** What a call of the handler leaves behind: the response writer, and
    the gzip writer and the cursor if the handler got to create them. *)

Record Exchange : Type := {
  ex_w : ResponseWriter;
  ex_gz : option GzipWriter;
  ex_rows : option Rows
}.

Definition finish (w : ResponseWriter) : Exchange :=
  {| ex_w := w; ex_gz := None; ex_rows := None |}.

(** The two deferred calls, which run whichever way the body is left,
    last registered first: [gz.Close()], then [rows.Close()]. *)

Definition deferred (st : St) : Exchange :=
  let '(_, gz, w) := gzip_Close (st_gz st) (st_w st) in
  let rows := Rows_Close (st_rows st) in
  {| ex_w := w; ex_gz := Some gz; ex_rows := Some rows |}.

(** [queryHandler]. *)

Definition queryHandler (w : ResponseWriter) (r : Request) : Exchange :=
  if negb (String.eqb (Method r) MethodPost) then
    finish (http_Error w "Invalid request method" StatusMethodNotAllowed)
  else
    match Decode (Body r) {| Query := EmptyString |} with
    | Err _ => finish (http_Error w "Invalid request body" StatusBadRequest)
    | Ok sqlQuery =>
      match db_Query db context_Background (Query sqlQuery) with
      | Err err => finish (http_Error w ("Query error: " +:+ err) StatusBadRequest)
      | Ok rows =>
          let fieldDescriptions := Rows_FieldDescriptions rows in
          let columns := getColumnNames fieldDescriptions in
          let w := Header_Set "Content-Encoding" "gzip" w in
          let w := Header_Set "Content-Type" "application/json" w in
          let gz := gzip_NewWriter in
          deferred (snd (streamResponse columns
                           {| st_w := w; st_gz := gz; st_rows := rows |}))
      end
    end.

End Handler.

(** ** Reading a response

    The notions the properties below are stated with: the records of
    the stream, and what a client recovers from the body. *)

Definition headerRecord (columns : list string) : Json :=
  JObj [("columns", JArr (map JStr columns)); ("rows", JArr [])].

Definition rowRecord (values : list Json) : Json :=
  JObj [("rows", JArr [JArr values])].

(** The bytes of a sequence of records, each followed by a newline. *)

Fixpoint stream (docs : list Json) : string :=
  match docs with
  | [] => EmptyString
  | j :: rest => render j +:+ LF +:+ stream rest
  end.

Fixpoint member (k : string) (ms : list (string * Json)) : option Json :=
  match ms with
  | [] => None
  | (k', v) :: rest => if String.eqb k k' then Some v else member k rest
  end.

Definition isObject (j : Json) : bool :=
  match j with JObj _ => true | _ => false end.


(** The rows a record carries: the elements of its [rows] array. *)

Definition recordRows (j : Json) : list Json :=
  match j with
  | JObj ms => match member "rows" ms with Some (JArr rs) => rs | _ => [] end
  | _ => []
  end.

(** What a gzip reader makes of a body: the member header, blocks, the
    final block and a trailer that agrees with the data, and nothing
    else; otherwise the body is not a gzip stream. *)

Fixpoint inflate (acc : string) (cs : list Chunk) : option string :=
  match cs with
  | GzBlock d :: rest => inflate (acc +:+ d) rest
  | [GzFinal d; GzTrailer t] =>
      if String.eqb (acc +:+ d) t then Some t else None
  | _ => None
  end.

Definition gunzip (body : list Chunk) : option string :=
  match body with
  | GzHeader :: rest => inflate EmptyString rest
  | _ => None
  end.

(** The uncompressed data the deflate blocks of a body carry. *)

Definition payload (body : list Chunk) : string :=
  foldr (fun c acc =>
           match c with
           | GzBlock d | GzFinal d => d +:+ acc
           | _ => acc
           end) EmptyString body.

Definition isPlain (c : Chunk) : bool :=
  match c with Plain _ => true | _ => false end.

Definition isTrailer (c : Chunk) : bool :=
  match c with GzTrailer _ => true | _ => false end.

(** Lines of a byte string: the pieces that end in a newline. *)

Fixpoint linesFrom (cur : string) (s : string) : list string :=
  match s with
  | EmptyString => []
  | String c t =>
      if (byte_val c =? 10)%N then cur :: linesFrom EmptyString t
      else linesFrom (cur +:+ String c EmptyString) t
  end.

Definition lines (s : string) : list string := linesFrom EmptyString s.

Fixpoint hasByte (n : N) (s : string) : bool :=
  match s with
  | EmptyString => false
  | String c t => (byte_val c =? n)%N || hasByte n t
  end.

(** ** Runs of the handler

    The notions the lemmas and the claims about whole runs are stated
    with. *)

(** The data a sequence of blocks carries. *)

Definition joined (bs : list string) : string := foldr String.append EmptyString bs.

(** The state of a response in full flow: the gzip writer is open and
    sound, the member header and some blocks are out, and the blocks
    together with the compressor's window are the data written. *)

Record Streaming (sent : nat * gmap string string) (data : string)
       (z : GzipWriter) (w : ResponseWriter) : Prop := {
  s_err : gz_err z = None;
  s_open : gz_closed z = false;
  s_hdr : gz_wroteHeader z = true;
  s_digest : gz_digest z = data;
  s_conn : rw_conn w = None;
  s_sent : rw_sent w = Some sent;
  s_body : exists bs, rw_body w = GzHeader :: map GzBlock bs /\
                      joined bs +:+ gz_window z = data
}.

(** [advanced r r' n rest]: cursor [r'] is cursor [r] after [n] more
    rows were pulled, with [rest] still to come. *)

Definition advanced (r r' : Rows) (n : nat) (rest : list DataRow) : Prop :=
  r_ctx r' = r_ctx r /\ r_fields r' = r_fields r /\ r_pending r' = rest /\
  r_tail r' = r_tail r /\ r_err r' = r_err r /\ r_closed r' = false /\
  r_pulled r' = r_pulled r + n.

(** The values of a row that the encoder accepts, and their documents. *)

Definition marshalled (vs : list GoValue) (js : list Json) : Prop :=
  sequence (map marshal vs) = Ok js.

(** A response writer as the server hands it to the handler: nothing
    sent yet, on a connection that takes every write. *)

Definition fresh (w : ResponseWriter) : Prop :=
  rw_sent w = None /\ rw_body w = [] /\ rw_conn w = None.

(** A POST request whose body decodes to the query text [sql]. *)

Definition accepted (r : Request) (sql : string) : Prop :=
  Method r = MethodPost /\
  Decode (Body r) {| Query := EmptyString |} = Ok {| Query := sql |}.

(** The header block of a streamed response. *)

Definition jsonHeaders (w : ResponseWriter) : gmap string string :=
  <["Content-Type" := "application/json"]>
    (<["Content-Encoding" := "gzip"]> (rw_header w)).

(** The state in which the handler starts to stream. *)

Definition begin (w : ResponseWriter) (rs : ResultSet) : St :=
  {| st_w := Header_Set "Content-Type" "application/json"
               (Header_Set "Content-Encoding" "gzip" w);
     st_gz := gzip_NewWriter;
     st_rows := openRows context_Background rs |}.

(** A body made of the gzip member header, blocks, the chunks [note],
    the final block and the trailer over [data], where the blocks
    together carry [data]. *)

Definition framed (data : string) (note : list Chunk) (body : list Chunk) : Prop :=
  exists bs win,
    body = GzHeader :: map GzBlock bs ++ note ++ [GzFinal win; GzTrailer data] /\
    joined bs +:+ win = data.

(** The three ways a result can fail once the header record is out:
    [failsWith tail rest msg n unread] says that a cursor with [rest]
    to come and final error [tail] fails at once, that the handler
    reports [msg], having pulled [n] more rows and left [unread]. *)

Inductive failsWith (tail : option string)
  : list DataRow -> string -> nat -> list DataRow -> Prop :=
| fail_read e more :
    failsWith tail (Undecodable e :: more) ("Error reading row: " +:+ e) 1 more
| fail_encode vs e more :
    sequence (map marshal vs) = Err e ->
    failsWith tail (Decoded vs :: more) ("Error encoding row: " +:+ e) 1 more
| fail_cursor e :
    tail = Some e ->
    failsWith tail [] ("Query error: " +:+ e) 0 [].

(** ** Sample data *)

Definition field (name : string) (oid : N) : FieldDescription :=
  {| Name := name; TableOID := 0; TableAttributeNumber := 0; DataTypeOID := oid;
     DataTypeSize := 4; TypeModifier := -1; Format := 0 |}.

Definition selectAB : string := "SELECT 1 AS a, 2 AS b".
Definition selectN : string := "SELECT n FROM t".
Definition selectRatio : string := "SELECT 10 / (2 - n) FROM t".
Definition selectX : string := "SELECT id, x FROM measurements".
Definition selectEmpty : string := "SELECT * FROM empty_table".

(** A database with a few tables: [t] holds 1, 2, 3 in column [n];
    [measurements] has three rows whose [float8] column [x] is NULL,
    NaN and NULL. *)

Definition sampleDb : Database := fun sql =>
  if String.eqb sql selectAB then
    Ok {| rs_fields := [field "a" 23; field "b" 23];
          rs_rows := [Decoded [GInt 1; GInt 2]]; rs_err := None |}
  else if String.eqb sql selectN then
    Ok {| rs_fields := [field "n" 23];
          rs_rows := [Decoded [GInt 1]; Decoded [GInt 2]; Decoded [GInt 3]];
          rs_err := None |}
  else if String.eqb sql selectRatio then
    Ok {| rs_fields := [field "?column?" 23];
          rs_rows := [Decoded [GInt 10]];
          rs_err := Some "ERROR: division by zero (SQLSTATE 22012)" |}
  else if String.eqb sql selectX then
    Ok {| rs_fields := [field "id" 23; field "x" 701];
          rs_rows := [Decoded [GInt 1; GNil]; Decoded [GInt 2; GFloatNaN];
                      Decoded [GInt 3; GNil]];
          rs_err := None |}
  else if String.eqb sql selectEmpty then
    Ok {| rs_fields := [field "id" 23; field "label" 25];
          rs_rows := []; rs_err := None |}
  else Err "ERROR: syntax error at or near SELEC (SQLSTATE 42601)".

Definition freshWriter : ResponseWriter :=
  {| rw_header := ∅; rw_sent := None; rw_body := []; rw_conn := None |}.

Definition post (sql : string) : Request :=
  {| Method := "POST"; Body := Some (JObj [("query", JStr sql)]);
     Ctx := context_Background |}.

Definition quoted (s : string) : string := DQ +:+ s +:+ DQ.

(** A response writer whose connection takes one write and then fails. *)

Definition failingWriter : ResponseWriter :=
  {| rw_header := ∅; rw_sent := None; rw_body := []; rw_conn := Some 1 |}.

(** The request of [post selectN] made under a context whose
    cancellation signal has fired before the first row is pulled. *)

Definition cancelledPost : Request :=
  {| Method := "POST"; Body := Some (JObj [("query", JStr selectN)]);
     Ctx := {| cancelAt := Some 0 |} |}.

(** What C8 asks of a run: once the request's signal has fired, at most
    one more row is pulled. *)

Definition stopsWithinOneRow (r : Request) (ex : Exchange) : Prop :=
  forall k rows',
    cancelAt (Ctx r) = Some k -> ex_rows ex = Some rows' -> r_pulled rows' <= k + 1.

(** What C2 asks of a body: no chunk of error text in it. *)

Definition noErrorPayload (body : list Chunk) : Prop :=
  Forall (fun c => isPlain c = false) body.

(** What C3 asks of a body on the error path: no gzip trailer in it. *)

Definition noTrailer (body : list Chunk) : Prop :=
  Forall (fun c => isTrailer c = false) body.

(** What C10 calls a body that lacks the [query] key: a JSON value that
    is not an object with a member of that very name. *)

Definition lacksQueryKey (j : Json) : bool :=
  match j with
  | JObj members => negb (existsb (fun kv => String.eqb (fst kv) "query") members)
  | _ => true
  end.

(** Two such bodies: an empty array, and an object whose only member is
    named [QUERY]. *)

Definition postArray : Request :=
  {| Method := "POST"; Body := Some (JArr []); Ctx := context_Background |}.

Definition postUpperCase : Request :=
  {| Method := "POST"; Body := Some (JObj [("QUERY", JStr selectN)]);
     Ctx := context_Background |}.

(** The same request under another context. *)

Definition withContext (ctx : Context) (r : Request) : Request :=
  {| Method := Method r; Body := Body r; Ctx := ctx |}.

(** The request that names the empty query text outright. *)

Definition emptyQuery (r : Request) : Request :=
  {| Method := Method r; Body := Some (JObj [("query", JStr EmptyString)]);
     Ctx := Ctx r |}.

(** The stream C4 expects for the scenario, and the stream the handler
    writes. *)

Definition scenarioClaimed : string :=
  "{" +:+ quoted "columns" +:+ ":[" +:+ quoted "a" +:+ "," +:+ quoted "b" +:+ "]}"
  +:+ LF +:+ "{" +:+ quoted "rows" +:+ ":[[1,2]]}" +:+ LF.

Definition scenarioStream : string :=
  "{" +:+ quoted "columns" +:+ ":[" +:+ quoted "a" +:+ "," +:+ quoted "b" +:+ "],"
  +:+ quoted "rows" +:+ ":[]}"
  +:+ LF +:+ "{" +:+ quoted "rows" +:+ ":[[1,2]]}" +:+ LF.

(** ** Runs on any connection

    The notions the properties of runs on a connection that may fail
    are stated with. *)

(** The number of chunks of plain text in a body. *)

Definition plainCount (body : list Chunk) : nat :=
  length (List.filter isPlain body).

(** A response writer on which nothing was sent yet, whatever the state
    of its connection. *)

Definition unsent (w : ResponseWriter) : Prop :=
  rw_sent w = None /\ rw_body w = [].

(** [keeps w w']: a header block that was sent on [w] is the one sent on
    [w']. *)

Definition keeps (w w' : ResponseWriter) : Prop :=
  forall s, rw_sent w = Some s -> rw_sent w' = Some s.

(** [quiet w w']: from [w] to [w'] the sent header block is kept and no
    plain text was added to the body. *)

Definition quiet (w w' : ResponseWriter) : Prop :=
  keeps w w' /\ plainCount (rw_body w') = plainCount (rw_body w).

(** [Progress st st' fl good jss]: from state [st] the handler got to
    [st'], leaving by [fl], after handing to the compressor the row
    records [jss] of the rows [good], which head the rows the cursor of
    [st] had to deliver. *)

Record Progress (st st' : St) (fl : Flow unit)
       (good : list (list GoValue)) (jss : list (list Json)) : Prop := {
  pg_marshalled : Forall2 marshalled good jss;
  pg_prefix : exists rest, r_pending (st_rows st) = map Decoded good ++ rest;
  pg_digest : gz_digest (st_gz st') =
              gz_digest (st_gz st) +:+ stream (map rowRecord jss);
  pg_pulled_lo : r_pulled (st_rows st) + length good <= r_pulled (st_rows st');
  pg_pulled_hi : r_pulled (st_rows st') <= r_pulled (st_rows st) + length good + 1;
  pg_ctx : r_ctx (st_rows st') = r_ctx (st_rows st);
  pg_keeps : keeps (st_w st) (st_w st');
  pg_plain : plainCount (rw_body (st_w st')) <=
             plainCount (rw_body (st_w st)) +
             match fl with Returned => 1 | Fall _ => 0 end;
  pg_closed : gz_closed (st_gz st') = gz_closed (st_gz st);
  pg_err : fl = Fall tt -> gz_err (st_gz st) = None -> gz_err (st_gz st') = None
}.

(** The request bodies the decoder refuses: no JSON value at all, a
    value that is neither an object nor [null], or an object in which
    some member matching [query] holds neither a string nor [null]. *)

Definition isStringOrNull (j : Json) : bool :=
  match j with
  | JStr _ | JNull => true
  | _ => false
  end.

Definition badMember (kv : string * Json) : bool :=
  matchesQuery (fst kv) && negb (isStringOrNull (snd kv)).

Definition rejectedBody (body : option Json) : Prop :=
  match body with
  | None => True
  | Some JNull => False
  | Some (JObj members) => existsb badMember members = true
  | Some _ => True
  end.

(** ** Process start-up: [main]

    What [main] does to the world, in order: the call of
    [pgxpool.Connect], a line logged, the call of
    [http.ListenAndServe] on the address with the one route of the mux
    (wrapped in the default CORS handler) serving from the given pool,
    the deferred [db.Close()], and [log.Fatal], which logs and ends the
    process. *)

Inductive Effect : Type :=
| Connect (url : string)
| Println (msg : string)
| ListenAndServe (addr pattern : string) (pool : Database)
| PoolClose
| Fatal (msg : string).

(** A statement of [main] leaves a trace and either goes on with a
    value or has ended the process. *)

Definition Proc (A : Type) : Type := list Effect * option A.

Definition retP {A : Type} (a : A) : Proc A := ([], Some a).

Definition bindP {A B : Type} (m : Proc A) (k : A -> Proc B) : Proc B :=
  match m with
  | (t, Some a) => let '(t', r) := k a in (t ++ t', r)
  | (t, None) => (t, None)
  end.

Definition emit (e : Effect) : Proc unit := ([e], Some tt).

(** [log.Fatal]: the process ends here; deferred calls do not run. *)

Definition log_Fatal {A : Type} (msg : string) : Proc A := ([Fatal msg], None).

(** [defer d] before [body]: [d] runs when [body] returns, not when
    the process ends inside it. *)

Definition withDefer {A : Type} (d : Proc unit) (body : Proc A) : Proc A :=
  match body with
  | (t, Some a) => (t ++ fst d, Some a)
  | (t, None) => (t, None)
  end.

(** [os.Getenv]: the empty string for a variable that is not set. *)

Definition os_Getenv (env : gmap string string) (key : string) : string :=
  match env !! key with
  | Some v => v
  | None => EmptyString
  end.

(** [main].  [connect] is what [pgxpool.Connect] answers for a URL and
    [serveErr] the error [http.ListenAndServe] returns when it stops. *)

Definition main (env : gmap string string) (connect : string -> Result Database)
           (serveErr : string) : Proc unit :=
  let dbURL := os_Getenv env "DATABASE_URL" in
  bindP (if String.eqb dbURL EmptyString
         then log_Fatal "DATABASE_URL environment variable is required"
         else retP tt) (fun _ =>
  bindP (emit (Connect dbURL)) (fun _ =>
  match connect dbURL with
  | Err err => log_Fatal ("Unable to connect to database: " +:+ err +:+ LF)
  | Ok db =>
      withDefer (emit PoolClose)
        (bindP (emit (Println "Starting server on :8080...")) (fun _ =>
         bindP (emit (ListenAndServe ":8080" "/query" db)) (fun _ =>
         log_Fatal serveErr)))
  end)).

(** An environment with the variable set, and a pool that answers as
    [sampleDb]. *)

Definition sampleEnv : gmap string string :=
  {[ "DATABASE_URL" := "postgres://localhost/app" ]}.

Definition sampleConnect : string -> Result Database := fun url =>
  if String.eqb url "postgres://localhost/app" then Ok sampleDb
  else Err "failed to connect".

(** A database that accepts any query and fails before the first row. *)

Definition lateErrorDb : Database := fun _ =>
  Ok {| rs_fields := [field "total" 20]; rs_rows := [];
        rs_err := Some "ERROR: canceling statement due to statement timeout (SQLSTATE 57014)" |}.

(** A response writer whose connection is already gone. *)

Definition deadWriter : ResponseWriter :=
  {| rw_header := ∅; rw_sent := None; rw_body := []; rw_conn := Some 0 |}.

(** * Lemmas *)

(** ** Examples of the encoders *)

Example render_demo :
  render (JObj [("a<b", JArr [JNum (-12); JNull; JStr ("x" +:+ LF)]);
                ("k", JBool true)])
  = "{" +:+ DQ +:+ "a\u003cb" +:+ DQ +:+ ":[-12,null," +:+ DQ +:+ "x\n"
    +:+ DQ +:+ "]," +:+ DQ +:+ "k" +:+ DQ +:+ ":true}".
Proof. vm_compute. reflexivity. Qed.

(** A byte that begins no valid UTF-8 encoding leaves the encoder as
    U+FFFD; a valid encoding passes as it is. *)

Example invalid_utf8_demo :
  quote (String (ascii_of_N 255) "a") = DQ +:+ replacementChar +:+ "a" +:+ DQ /\
  quote (String (ascii_of_N 195) (String (ascii_of_N 169) "a"))
  = DQ +:+ String (ascii_of_N 195) (String (ascii_of_N 169) "a") +:+ DQ.
Proof. split; vm_compute; reflexivity. Qed.

Example encodeLine_demo :
  encodeLine (GMap [("rows", GSlice [GSlice [GInt 1; GNil]]); ("columns", GSlice [])])
  = Ok ("{" +:+ DQ +:+ "columns" +:+ DQ +:+ ":[]," +:+ DQ +:+ "rows" +:+ DQ
        +:+ ":[[1,null]]}" +:+ LF).
Proof. vm_compute. reflexivity. Qed.

Example decode_query :
  Decode (Some (JObj [("query", JStr selectAB)])) {| Query := EmptyString |}
  = Ok {| Query := selectAB |}.
Proof. reflexivity. Qed.

Example decode_case_variant :
  Decode (Some (JObj [("QUERY", JStr selectAB)])) {| Query := EmptyString |}
  = Ok {| Query := selectAB |}.
Proof. reflexivity. Qed.

Example decode_array_rejected :
  Decode (Some (JArr [])) {| Query := EmptyString |}
  = Err "json: cannot unmarshal array into Go value of type main.SQLQuery".
Proof. reflexivity. Qed.

Example decode_number_rejected :
  Decode (Some (JObj [("query", JNum 1)])) {| Query := EmptyString |}
  = Err "json: cannot unmarshal number into Go struct field SQLQuery.query of type string".
Proof. reflexivity. Qed.

(** ** Examples of runs *)

Example empty_table_run :
  gunzip (rw_body (ex_w (queryHandler 4096 sampleDb freshWriter (post selectEmpty))))
  = Some ("{" +:+ quoted "columns" +:+ ":[" +:+ quoted "id" +:+ "," +:+
          quoted "label" +:+ "]," +:+ quoted "rows" +:+ ":[]}" +:+ LF).
Proof. vm_compute. reflexivity. Qed.

Example get_run :
  let ex := queryHandler 4096 sampleDb freshWriter
              {| Method := "GET"; Body := None; Ctx := context_Background |} in
  rw_body (ex_w ex) = [Plain ("Invalid request method" +:+ LF)] /\
  fst <$> rw_sent (ex_w ex) = Some StatusMethodNotAllowed.
Proof. split; vm_compute; reflexivity. Qed.

Example malformed_body_run :
  let ex := queryHandler 4096 sampleDb freshWriter
              {| Method := "POST"; Body := None; Ctx := context_Background |} in
  rw_body (ex_w ex) = [Plain ("Invalid request body" +:+ LF)] /\
  fst <$> rw_sent (ex_w ex) = Some StatusBadRequest.
Proof. split; vm_compute; reflexivity. Qed.

(** With small blocks the records leave the compressor as they come. *)

Example small_blocks_run :
  rw_body (ex_w (queryHandler 8 sampleDb freshWriter (post selectAB)))
  = [GzHeader;
     GzBlock (render (headerRecord ["a"; "b"]) +:+ LF);
     GzBlock (render (rowRecord [JNum 1; JNum 2]) +:+ LF);
     GzFinal EmptyString;
     GzTrailer scenarioStream].
Proof. vm_compute. reflexivity. Qed.

(** On a connection that fails after the gzip member header went out,
    the rows are still all pulled: the compressor holds the records and
    the failure shows only when [gz.Close()] flushes. *)

Example failing_connection_run :
  let ex := queryHandler 4096 sampleDb failingWriter (post selectN) in
  rw_body (ex_w ex) = [GzHeader] /\
  r_pulled <$> ex_rows ex = Some 3 /\
  (gz_err <$> ex_gz ex) = Some (Some "write: broken pipe").
Proof. repeat split; vm_compute; reflexivity. Qed.

(** ** Byte strings *)

#[local] Arguments String.append !_ _ / : simpl nomatch.

Lemma append_nil_r (s : string) : s +:+ EmptyString = s.
Proof. induction s as [|c s IH]; simpl; [reflexivity | now rewrite IH]. Qed.

Lemma append_assoc (a b c : string) : (a +:+ b) +:+ c = a +:+ (b +:+ c).
Proof. induction a as [|x a IH]; simpl; [reflexivity | now rewrite IH]. Qed.

Lemma hasByte_append (n : N) (a b : string) :
  hasByte n (a +:+ b) = hasByte n a || hasByte n b.
Proof.
  induction a as [|x a IH]; simpl; [reflexivity |].
  rewrite IH. now rewrite orb_assoc.
Qed.

Lemma stream_app (a b : list Json) : stream (a ++ b) = stream a +:+ stream b.
Proof.
  induction a as [|j a IH]; simpl; [reflexivity |].
  now rewrite IH, !append_assoc.
Qed.

(** ** [getColumnNames] *)

Lemma fill_names (cols : list FieldDescription) :
  forall (pre : list string) (names : list string),
    length names = length cols ->
    foldl (fun names ic => <[fst ic := Name (snd ic)]> names) (pre ++ names)
          (imap (fun i col => (length pre + i, col)) cols)
    = pre ++ map Name cols.
Proof.
  induction cols as [|c cols IH]; intros pre names Hlen.
  - destruct names; [reflexivity | discriminate].
  - destruct names as [|n names]; [discriminate |].
    simpl in Hlen. injection Hlen as Hlen.
    simpl. rewrite (insert_app_r pre (n :: names) 0). simpl.
    replace (pre ++ Name c :: names) with ((pre ++ [Name c]) ++ names)
      by now rewrite <- app_assoc.
    rewrite (imap_ext _ (fun i col => (length (pre ++ [Name c]) + i, col))).
    + rewrite (IH _ _ Hlen). now rewrite <- app_assoc.
    + intros i x _. unfold compose. rewrite length_app. simpl. f_equal. lia.
Qed.

Lemma getColumnNames_map (cols : list FieldDescription) :
  getColumnNames cols = map Name cols.
Proof.
  unfold getColumnNames.
  apply (fill_names cols [] (replicate (length cols) EmptyString)).
  apply length_replicate.
Qed.

(** ** The encoder on the handler's records *)

Lemma sequence_strings (cols : list string) :
  sequence (map marshal (map GString cols)) = Ok (map JStr cols).
Proof.
  induction cols as [|c cols IH]; simpl; [reflexivity |].
  now rewrite IH.
Qed.

Lemma marshal_GSlice (elems : list GoValue) :
  marshal (GSlice elems) =
  match sequence (map marshal elems) with
  | Ok js => Ok (JArr js)
  | Err e => Err e
  end.
Proof. reflexivity. Qed.

Lemma marshal_GMap (entries : list (string * GoValue)) :
  marshal (GMap entries) =
  match sequence (map keyed
          (sortKeys (map (fun kv => (fst kv, marshal (snd kv))) entries))) with
  | Ok ms => Ok (JObj ms)
  | Err e => Err e
  end.
Proof. reflexivity. Qed.

Lemma marshal_queryResponse (columns : list string) :
  marshal (GMap [("columns", GSlice (map GString columns)); ("rows", GSlice [])])
  = Ok (headerRecord columns).
Proof.
  rewrite marshal_GMap. cbn [map fst snd].
  rewrite !marshal_GSlice, sequence_strings. reflexivity.
Qed.

Lemma marshal_row (values : list GoValue) :
  marshal (GMap [("rows", GSlice [GSlice values])]) =
  match sequence (map marshal values) with
  | Ok js => Ok (rowRecord js)
  | Err e => Err e
  end.
Proof.
  rewrite marshal_GMap. cbn [map fst snd].
  rewrite !marshal_GSlice. cbn [map].
  rewrite marshal_GSlice.
  destruct (sequence (map marshal values)); reflexivity.
Qed.

(** ** The response writer and the gzip writer on a live connection *)

Lemma rw_Write_live (c : Chunk) (w : ResponseWriter) :
  rw_conn w = None ->
  rw_Write c w =
  (None,
   {| rw_header := rw_header w;
      rw_sent := Some (match rw_sent w with
                       | Some s => s
                       | None => (StatusOK, rw_header w)
                       end);
      rw_body := rw_body w ++ [c]; rw_conn := None |}).
Proof.
  intros Hc. destruct w as [h s b c']. simpl in Hc. subst c'.
  unfold rw_Write, WriteHeader. destruct s; reflexivity.
Qed.

Lemma http_Error_committed (w : ResponseWriter) (msg : string) (code : nat)
      (sent : nat * gmap string string) :
  rw_conn w = None -> rw_sent w = Some sent ->
  rw_body (http_Error w msg code) = rw_body w ++ [Plain (msg +:+ LF)] /\
  rw_sent (http_Error w msg code) = Some sent /\
  rw_conn (http_Error w msg code) = None.
Proof.
  intros Hc Hs. destruct w as [h s b c]. simpl in *. subst.
  unfold http_Error, rw_Write, WriteHeader. simpl. auto.
Qed.

Lemma http_Error_fresh (w : ResponseWriter) (msg : string) (code : nat) :
  rw_conn w = None -> rw_sent w = None ->
  rw_body (http_Error w msg code) = rw_body w ++ [Plain (msg +:+ LF)] /\
  rw_sent (http_Error w msg code) =
    Some (code,
          <["X-Content-Type-Options" := "nosniff"]>
            (<["Content-Type" := "text/plain; charset=utf-8"]>
               (delete "Content-Length" (rw_header w)))).
Proof.
  intros Hc Hs. destruct w as [h s b c]. simpl in *. subst.
  unfold http_Error, rw_Write, WriteHeader. simpl. split; reflexivity.
Qed.

Lemma joined_snoc (bs : list string) (b : string) :
  joined (bs ++ [b]) = joined bs +:+ b.
Proof.
  induction bs as [|x bs IH]; simpl.
  - apply append_nil_r.
  - now rewrite IH, append_assoc.
Qed.

Section Gzip.

Variable blockSize : nat.

Lemma gzip_Write_first (p : string) (w : ResponseWriter) :
  rw_conn w = None -> rw_sent w = None -> rw_body w = [] ->
  exists z' w',
    gzip_Write blockSize p gzip_NewWriter w = (None, z', w') /\
    Streaming (StatusOK, rw_header w) p z' w' /\
    rw_header w' = rw_header w.
Proof.
  intros Hc Hs Hb. destruct w as [h s b c]. simpl in *. subst.
  unfold gzip_Write, gzip_NewWriter, flate_Write, rw_Write, WriteHeader. simpl.
  destruct (blockSize <=? String.length p)%nat; simpl.
  - do 2 eexists. split; [reflexivity |]. split; [|reflexivity].
    constructor; simpl; try reflexivity.
    exists [p]. split; [reflexivity |]. simpl. now rewrite !append_nil_r.
  - do 2 eexists. split; [reflexivity |]. split; [|reflexivity].
    constructor; simpl; try reflexivity.
    exists []. split; reflexivity.
Qed.

Lemma gzip_Write_streaming sent data (p : string) z w :
  Streaming sent data z w ->
  exists z' w',
    gzip_Write blockSize p z w = (None, z', w') /\
    Streaming sent (data +:+ p) z' w' /\
    rw_header w' = rw_header w.
Proof.
  intros [He Ho Hh Hd Hc Hs (bs & Hb & Hj)].
  destruct w as [h s b c], z as [wh win dig cl er]. simpl in *. subst.
  unfold gzip_Write, flate_Write, rw_Write, WriteHeader. simpl.
  destruct (blockSize <=? String.length (win +:+ p))%nat; simpl.
  - do 2 eexists. split; [reflexivity |]. split; [|reflexivity].
    constructor; simpl; try reflexivity.
    exists (bs ++ [win +:+ p]). split.
    + now rewrite map_app.
    + now rewrite joined_snoc, append_nil_r, append_assoc.
  - do 2 eexists. split; [reflexivity |]. split; [|reflexivity].
    constructor; simpl; try reflexivity.
    exists bs. split; [reflexivity |]. now rewrite append_assoc.
Qed.

Lemma gzip_Close_live z w :
  gz_err z = None -> gz_closed z = false -> gz_wroteHeader z = true ->
  rw_conn w = None ->
  exists z' w',
    gzip_Close blockSize z w = (None, z', w') /\
    rw_body w' = rw_body w ++ [GzFinal (gz_window z); GzTrailer (gz_digest z)] /\
    (forall s, rw_sent w = Some s -> rw_sent w' = Some s) /\
    rw_header w' = rw_header w /\
    gz_digest z' = gz_digest z /\ gz_closed z' = true /\ gz_err z' = None.
Proof.
  intros He Ho Hh Hc.
  destruct w as [h s b c], z as [wh win dig cl er]. simpl in *. subst.
  unfold gzip_Close, rw_Write, WriteHeader. simpl.
  destruct s; simpl; do 2 eexists; (split; [reflexivity |]);
    rewrite <- app_assoc; simpl; repeat split; auto; discriminate.
Qed.

End Gzip.

(** ** The row loop *)

Section Loop.

Variable blockSize : nat.

Lemma encodeLine_row vs js :
  marshalled vs js ->
  encodeLine (GMap [("rows", GSlice [GSlice vs])]) = Ok (render (rowRecord js) +:+ LF).
Proof. intros H. unfold encodeLine. now rewrite marshal_row, H. Qed.

Lemma encodeLine_row_err vs e :
  sequence (map marshal vs) = Err e ->
  encodeLine (GMap [("rows", GSlice [GSlice vs])]) = Err e.
Proof. intros H. unfold encodeLine. now rewrite marshal_row, H. Qed.

Lemma rowLoop_step sent data vs js rest k st :
  Streaming sent data (st_gz st) (st_w st) ->
  r_closed (st_rows st) = false ->
  cancelAt (r_ctx (st_rows st)) = None ->
  r_pending (st_rows st) = Decoded vs :: rest ->
  marshalled vs js ->
  exists st',
    rowLoop blockSize (S k) st = rowLoop blockSize k st' /\
    Streaming sent (data +:+ render (rowRecord js) +:+ LF) (st_gz st') (st_w st') /\
    advanced (st_rows st) (st_rows st') 1 rest /\
    rw_header (st_w st') = rw_header (st_w st).
Proof.
  intros HS Hcl Hctx Hp Hm.
  destruct (gzip_Write_streaming blockSize sent data
              (render (rowRecord js) +:+ LF) _ _ HS) as (z' & w' & Hw & HS' & Hh).
  destruct st as [w z r]. destruct r as [ctx fds pend tl cur er cl n].
  simpl in *. subst.
  exists {| st_w := w'; st_gz := z';
            st_rows := {| r_ctx := ctx; r_fields := fds; r_pending := rest;
                          r_tail := tl; r_current := Some (Decoded vs);
                          r_err := er; r_closed := false; r_pulled := S n |} |}.
  split; [| split; [exact HS' | split; [| exact Hh]]].
  - cbn [rowLoop]. unfold mbind, M_bind, rows_Next, Rows_Next, cancelled. simpl.
    rewrite Hctx. simpl.
    unfold Encoder_Encode. rewrite (encodeLine_row _ _ Hm). simpl.
    rewrite Hw. reflexivity.
  - unfold advanced. simpl. repeat split; auto. lia.
Qed.

Lemma rowLoop_rows sent :
  forall good jss, Forall2 marshalled good jss ->
  forall data rest k st,
    Streaming sent data (st_gz st) (st_w st) ->
    r_closed (st_rows st) = false ->
    cancelAt (r_ctx (st_rows st)) = None ->
    r_pending (st_rows st) = map Decoded good ++ rest ->
    exists st',
      rowLoop blockSize (length good + k) st = rowLoop blockSize k st' /\
      Streaming sent (data +:+ stream (map rowRecord jss)) (st_gz st') (st_w st') /\
      advanced (st_rows st) (st_rows st') (length good) rest /\
      rw_header (st_w st') = rw_header (st_w st).
Proof.
  induction 1 as [|vs js good jss Hm _ IH]; intros data rest k st HS Hcl Hctx Hp.
  - exists st. simpl in *. rewrite append_nil_r.
    split; [reflexivity | split; [exact HS | split; [| reflexivity]]].
    unfold advanced. repeat split; auto.
  - simpl in Hp.
    destruct (rowLoop_step sent data vs js _ (length good + k) st HS Hcl Hctx Hp Hm)
      as (st1 & E1 & HS1 & (A1 & A2 & A3 & A4 & A5 & A6 & A7) & Hh1).
    destruct (IH (data +:+ render (rowRecord js) +:+ LF) rest k st1 HS1 A6
                 ltac:(now rewrite A1) A3)
      as (st2 & E2 & HS2 & (B1 & B2 & B3 & B4 & B5 & B6 & B7) & Hh2).
    exists st2. split; [| split; [| split]].
    + change (length (vs :: good) + k) with (S (length good + k)).
      rewrite E1. exact E2.
    + cbn [map stream]. rewrite !append_assoc in HS2. exact HS2.
    + unfold advanced. repeat split; try congruence.
      cbn [length]. lia.
    + congruence.
Qed.

End Loop.

(** ** The fuel of the row loop

    [streamRows] runs the loop with one unit of fuel more than the
    cursor has rows to deliver.  The loop then always ends by itself: a
    larger supply of fuel gives the same result, whatever the state of
    the connection, the gzip writer and the cursor. *)

Lemma rowLoop_fuel blockSize :
  forall fuel st,
    length (r_pending (st_rows st)) < fuel ->
    rowLoop blockSize fuel st =
    rowLoop blockSize (S (length (r_pending (st_rows st)))) st.
Proof.
  induction fuel as [|f IH]; intros st Hlt; [lia |].
  destruct st as [w z r]. destruct r as [ctx fds pend tl cur er cl n].
  simpl in Hlt. cbn [rowLoop st_rows r_pending].
  unfold mbind, M_bind, rows_Next, Rows_Next. simpl.
  destruct cl; [reflexivity |].
  destruct (cancelled ctx n); [reflexivity |].
  destruct pend as [|row rest]; [reflexivity |].
  simpl. unfold rows_Values, Rows_Values. simpl.
  destruct row as [vs|e]; simpl; [| reflexivity].
  unfold Encoder_Encode.
  destruct (encodeLine (GMap [("rows", GSlice [GSlice vs])])) as [line|e]; simpl;
    [| reflexivity].
  destruct (gzip_Write blockSize line z w) as [[err z'] w']. simpl.
  destruct err; [reflexivity |].
  simpl in Hlt.
  apply (IH {| st_w := w'; st_gz := z';
               st_rows := {| r_ctx := ctx; r_fields := fds; r_pending := rest;
                             r_tail := tl; r_current := Some (Decoded vs);
                             r_err := er; r_closed := false; r_pulled := S n |} |}).
  simpl. lia.
Qed.

Lemma streamRows_fuel blockSize (extra : nat) (st : St) :
  rowLoop blockSize (S (length (r_pending (st_rows st))) + extra) st =
  streamRows blockSize st.
Proof. unfold streamRows. apply rowLoop_fuel. lia. Qed.

(** ** Whole runs of the handler *)

Section Runs.

Variable blockSize : nat.
Variable db : Database.

Lemma queryHandler_accepted w r sql :
  accepted r sql ->
  queryHandler blockSize db w r =
  match db sql with
  | Err err => finish (http_Error w ("Query error: " +:+ err) StatusBadRequest)
  | Ok rs =>
      deferred blockSize
        (snd (streamResponse blockSize (map Name (rs_fields rs)) (begin w rs)))
  end.
Proof.
  intros [Hm Hd]. unfold queryHandler. rewrite Hm, Hd.
  unfold db_Query. simpl. destruct (db sql) as [rs|e]; [| reflexivity].
  unfold Rows_FieldDescriptions. simpl. now rewrite getColumnNames_map.
Qed.

Lemma writeHeaderRecord_begin w rs cols :
  fresh w ->
  exists st1,
    writeHeaderRecord blockSize cols (begin w rs) = (Fall tt, st1) /\
    Streaming (StatusOK, jsonHeaders w) (stream [headerRecord cols])
              (st_gz st1) (st_w st1) /\
    st_rows st1 = openRows context_Background rs.
Proof.
  intros (Hs & Hb & Hc).
  destruct (gzip_Write_first blockSize (render (headerRecord cols) +:+ LF)
              (st_w (begin w rs)) Hc Hs Hb) as (z' & w' & Hw & HS & Hh).
  exists {| st_w := w'; st_gz := z'; st_rows := openRows context_Background rs |}.
  split; [| split; [| reflexivity]].
  - unfold writeHeaderRecord, mbind, M_bind, Encoder_Encode, encodeLine.
    rewrite marshal_queryResponse. simpl st_gz. simpl st_w in *.
    rewrite Hw. reflexivity.
  - unfold stream. rewrite append_nil_r. exact HS.
Qed.

(** The run up to the first row that is not streamed. *)

Lemma streamResponse_rows w rs cols good jss rest :
  fresh w ->
  rs_rows rs = map Decoded good ++ rest ->
  Forall2 marshalled good jss ->
  exists st',
    streamResponse blockSize cols (begin w rs) =
      M_bind _ _ (fun _ => checkErr) (rowLoop blockSize (S (length rest))) st' /\
    Streaming (StatusOK, jsonHeaders w)
              (stream (headerRecord cols :: map rowRecord jss))
              (st_gz st') (st_w st') /\
    advanced (openRows context_Background rs) (st_rows st') (length good) rest.
Proof.
  intros Hf Hrows Hm.
  destruct (writeHeaderRecord_begin w rs cols Hf) as (st1 & E1 & HS1 & Hr1).
  destruct (rowLoop_rows blockSize _ good jss Hm _ rest (S (length rest)) st1 HS1)
    as (st' & E2 & HS2 & Hadv & _).
  - now rewrite Hr1.
  - now rewrite Hr1.
  - now rewrite Hr1.
  - exists st'. split; [| split].
    + unfold streamResponse, mbind at 1, M_bind at 1. rewrite E1.
      unfold mbind at 1, M_bind at 1. unfold streamRows.
      rewrite Hr1. simpl r_pending. rewrite Hrows, length_app, length_map.
      replace (S (length good + length rest))
        with (length good + S (length rest)) by lia.
      rewrite E2. reflexivity.
    + cbn [stream] in *. rewrite append_nil_r in HS2.
      rewrite !append_assoc in HS2. exact HS2.
    + now rewrite Hr1 in Hadv.
Qed.

(** The loop on an exhausted cursor that reports no error. *)

Lemma ending_clean st' r0 n :
  advanced r0 (st_rows st') n [] ->
  r_tail r0 = None -> r_err r0 = None -> cancelAt (r_ctx r0) = None ->
  M_bind _ _ (fun _ => checkErr) (rowLoop blockSize 1) st' =
  (Fall tt, {| st_w := st_w st'; st_gz := st_gz st';
               st_rows := Rows_fatal None (st_rows st') |}).
Proof.
  intros (A1 & A2 & A3 & A4 & A5 & A6 & A7) Ht He Hc.
  destruct st' as [w z r]. destruct r as [ctx fds pend tl cur er cl m].
  simpl in *. subst. rewrite Ht, He.
  unfold M_bind. cbn [rowLoop]. unfold mbind, M_bind, rows_Next, Rows_Next, cancelled.
  simpl. rewrite Hc. reflexivity.
Qed.

(** The loop on a cursor that fails at once. *)

Lemma ending_failed st' r0 n rest msg k unread :
  advanced r0 (st_rows st') n rest ->
  r_err r0 = None -> cancelAt (r_ctx r0) = None ->
  failsWith (r_tail r0) rest msg k unread ->
  exists r',
    M_bind _ _ (fun _ => checkErr) (rowLoop blockSize (S (length rest))) st' =
    (Returned, {| st_w := http_Error (st_w st') msg StatusInternalServerError;
                  st_gz := st_gz st'; st_rows := r' |}) /\
    r_pending r' = unread /\ r_pulled r' = r_pulled r0 + n + k /\
    r_ctx r' = r_ctx r0.
Proof.
  intros (A1 & A2 & A3 & A4 & A5 & A6 & A7) He Hc Hfail.
  destruct st' as [w z r]. destruct r as [ctx fds pend tl cur er cl m].
  simpl in *. subst.
  destruct Hfail as [e more | vs e more Hv | e Ht].
  - eexists. split; [| split; [| split]].
    + unfold M_bind. cbn [rowLoop].
      unfold mbind, M_bind, rows_Next, Rows_Next, cancelled. simpl.
      rewrite Hc. simpl. reflexivity.
    + reflexivity.
    + simpl. lia.
    + reflexivity.
  - eexists. split; [| split; [| split]].
    + unfold M_bind. cbn [rowLoop].
      unfold mbind, M_bind, rows_Next, Rows_Next, cancelled. simpl.
      rewrite Hc. simpl. unfold Encoder_Encode.
      rewrite (encodeLine_row_err _ _ Hv). simpl. reflexivity.
    + reflexivity.
    + simpl. lia.
    + reflexivity.
  - eexists. split; [| split; [| split]].
    + unfold M_bind. cbn [rowLoop].
      unfold mbind, M_bind, rows_Next, Rows_Next, cancelled. simpl.
      rewrite Hc. simpl. unfold checkErr, mbind, M_bind, rows_Err, Rows_Err. simpl.
      rewrite He, Ht. simpl. reflexivity.
    + reflexivity.
    + simpl. lia.
    + reflexivity.
Qed.

(** The deferred calls after a clean run and after a reported failure. *)

Lemma deferred_clean sent data st :
  Streaming sent data (st_gz st) (st_w st) ->
  framed data [] (rw_body (ex_w (deferred blockSize st))) /\
  rw_sent (ex_w (deferred blockSize st)) = Some sent /\
  ex_rows (deferred blockSize st) = Some (Rows_Close (st_rows st)).
Proof.
  intros [He Ho Hh Hd Hc Hs (bs & Hb & Hj)].
  destruct (gzip_Close_live blockSize _ _ He Ho Hh Hc)
    as (z' & w' & E & Hbody & Hsent & _).
  unfold deferred. rewrite E. simpl. split; [| split].
  - exists bs, (gz_window (st_gz st)). rewrite Hbody, Hb, Hd. split; [reflexivity |].
    exact Hj.
  - now apply Hsent.
  - reflexivity.
Qed.

Lemma deferred_failed sent data z w msg code r :
  Streaming sent data z w ->
  let ex := deferred blockSize
              {| st_w := http_Error w msg code; st_gz := z; st_rows := r |} in
  framed data [Plain (msg +:+ LF)] (rw_body (ex_w ex)) /\
  rw_sent (ex_w ex) = Some sent /\
  ex_rows ex = Some (Rows_Close r).
Proof.
  intros [He Ho Hh Hd Hc Hs (bs & Hb & Hj)].
  destruct (http_Error_committed w msg code sent Hc Hs) as (Eb & Es & Ec).
  destruct (gzip_Close_live blockSize z (http_Error w msg code) He Ho Hh Ec)
    as (z' & w' & E & Hbody & Hsent & _).
  unfold deferred. simpl. rewrite E. simpl. split; [| split].
  - exists bs, (gz_window z). rewrite Hbody, Eb, Hb, Hd. split; [| exact Hj].
    simpl. now rewrite <- !app_assoc.
  - now apply Hsent.
  - reflexivity.
Qed.

(** *** The two kinds of run on a live connection *)

Lemma run_clean w r sql rs good jss :
  accepted r sql -> fresh w -> db sql = Ok rs ->
  rs_rows rs = map Decoded good -> rs_err rs = None ->
  Forall2 marshalled good jss ->
  let ex := queryHandler blockSize db w r in
  framed (stream (headerRecord (map Name (rs_fields rs)) :: map rowRecord jss)) []
         (rw_body (ex_w ex)) /\
  rw_sent (ex_w ex) = Some (StatusOK, jsonHeaders w) /\
  exists rows', ex_rows ex = Some rows' /\ r_pulled rows' = length good /\
                r_pending rows' = [] /\ r_closed rows' = true /\
                r_ctx rows' = context_Background.
Proof.
  intros Hacc Hf Hdb Hrows Herr Hm ex. subst ex.
  rewrite (queryHandler_accepted _ _ _ Hacc), Hdb.
  destruct (streamResponse_rows w rs (map Name (rs_fields rs)) good jss []
              Hf ltac:(now rewrite app_nil_r) Hm) as (st' & E & HS & Hadv).
  rewrite E. simpl length.
  rewrite (ending_clean st' _ _ Hadv Herr eq_refl eq_refl). simpl snd.
  destruct (deferred_clean _ _
              {| st_w := st_w st'; st_gz := st_gz st';
                 st_rows := Rows_fatal None (st_rows st') |} HS) as (F & S' & R).
  split; [exact F | split; [exact S' |]].
  rewrite R. eexists. split; [reflexivity |].
  destruct Hadv as (A1 & A2 & A3 & A4 & A5 & A6 & A7). simpl.
  rewrite A7, A3, A1. auto.
Qed.

Lemma run_failed w r sql rs good jss rest msg k unread :
  accepted r sql -> fresh w -> db sql = Ok rs ->
  rs_rows rs = map Decoded good ++ rest ->
  Forall2 marshalled good jss ->
  failsWith (rs_err rs) rest msg k unread ->
  let ex := queryHandler blockSize db w r in
  framed (stream (headerRecord (map Name (rs_fields rs)) :: map rowRecord jss))
         [Plain (msg +:+ LF)] (rw_body (ex_w ex)) /\
  rw_sent (ex_w ex) = Some (StatusOK, jsonHeaders w) /\
  exists rows', ex_rows ex = Some rows' /\ r_pulled rows' = length good + k /\
                r_pending rows' = unread /\ r_closed rows' = true /\
                r_ctx rows' = context_Background.
Proof.
  intros Hacc Hf Hdb Hrows Hm Hfail ex. subst ex.
  rewrite (queryHandler_accepted _ _ _ Hacc), Hdb.
  destruct (streamResponse_rows w rs (map Name (rs_fields rs)) good jss rest
              Hf Hrows Hm) as (st' & E & HS & Hadv).
  rewrite E.
  destruct (ending_failed st' _ _ rest msg k unread Hadv eq_refl eq_refl Hfail)
    as (r' & E' & Hp & Hn & Hx).
  rewrite E'. simpl snd.
  destruct (deferred_failed _ _ _ _ msg StatusInternalServerError r' HS)
    as (F & S' & R).
  split; [exact F | split; [exact S' |]].
  rewrite R. eexists. split; [reflexivity |]. simpl. auto.
Qed.

End Runs.

(** ** No record contains a raw newline *)

Lemma Json_induction (P : Json -> Prop) :
  P JNull -> (forall b, P (JBool b)) -> (forall n, P (JNum n)) ->
  (forall s, P (JStr s)) ->
  (forall elems, Forall P elems -> P (JArr elems)) ->
  (forall members, Forall (fun kv => P (snd kv)) members -> P (JObj members)) ->
  forall j, P j.
Proof.
  intros Hnull Hbool Hnum Hstr Harr Hobj.
  fix IH 1. intros [ |b|n|s|elems|members].
  - exact Hnull.
  - apply Hbool.
  - apply Hnum.
  - apply Hstr.
  - apply Harr. induction elems as [|j elems IHl]; constructor; [apply IH | exact IHl].
  - apply Hobj. induction members as [|[k v] members IHl]; constructor;
      [apply IH | exact IHl].
Qed.

Lemma escapeByte_noLF (c : ascii) : hasByte 10 (escapeByte c) = false.
Proof. destruct c as [[] [] [] [] [] [] [] []]; reflexivity. Qed.

Lemma isCont_noLF lo hi c :
  isCont lo hi c = true -> (128 <=? lo)%N = true -> (byte_val c =? 10)%N = false.
Proof.
  unfold isCont. intros H Hlo.
  apply andb_true_iff in H as [H1 _].
  apply N.leb_le in H1, Hlo. apply N.eqb_neq. lia.
Qed.

Lemma lead_noLF c : (byte_val c <? 128)%N = false -> (byte_val c =? 10)%N = false.
Proof. intros H. apply N.ltb_ge in H. apply N.eqb_neq. lia. Qed.

Lemma leadClass_lo x sz lo hi :
  leadClass x = (S sz, lo, hi) -> (128 <=? lo)%N = true.
Proof.
  unfold leadClass.
  repeat match goal with
         | |- context [if ?b then _ else _] => destruct b
         end; intros H; inversion H; reflexivity.
Qed.

Lemma runeSize_noLF c t k :
  (byte_val c <? 128)%N = false ->
  runeSize (String c t) = S k ->
  hasByte 10 (takeBytes (S k) (String c t)) = false.
Proof.
  intros Hc. unfold runeSize.
  destruct (leadClass (byte_val c)) as [[sz lo] hi] eqn:E.
  destruct sz as [|sz]; [discriminate |].
  pose proof (leadClass_lo _ _ _ _ E) as Hlo.
  pose proof (lead_noLF c Hc) as Hlead.
  destruct sz as [|[|[|[|sz]]]]; try discriminate.
  - destruct t as [|s1 t]; [discriminate |].
    destruct (isCont lo hi s1) eqn:C1; [| discriminate].
    intros [= <-]. simpl. rewrite Hlead, (isCont_noLF _ _ _ C1 Hlo). reflexivity.
  - destruct t as [|s1 [|s2 t]]; try discriminate.
    destruct (isCont lo hi s1) eqn:C1; [| discriminate].
    destruct (isCont 128 191 s2) eqn:C2; [| discriminate].
    intros [= <-]. simpl.
    rewrite Hlead, (isCont_noLF _ _ _ C1 Hlo), (isCont_noLF _ _ _ C2 eq_refl).
    reflexivity.
  - destruct t as [|s1 [|s2 [|s3 t]]]; try discriminate.
    destruct (isCont lo hi s1) eqn:C1; [| discriminate].
    destruct (isCont 128 191 s2) eqn:C2; [| discriminate].
    destruct (isCont 128 191 s3) eqn:C3; [| discriminate].
    intros [= <-]. simpl.
    rewrite Hlead, (isCont_noLF _ _ _ C1 Hlo), (isCont_noLF _ _ _ C2 eq_refl),
      (isCont_noLF _ _ _ C3 eq_refl).
    reflexivity.
Qed.

Lemma lineSeparator_noLF s esc :
  lineSeparator s = Some esc -> hasByte 10 esc = false.
Proof.
  unfold lineSeparator. destruct s as [|a [|b [|c t]]]; try discriminate.
  repeat match goal with
         | |- context [if ?b then _ else _] => destruct b
         end; intros H; inversion H; reflexivity.
Qed.

Lemma escapeFrom_eq skip c t :
  escapeFrom skip (String c t) =
  match skip with
  | S k => escapeFrom k t
  | O =>
    if (byte_val c <? 128)%N then escapeByte c +:+ escapeFrom 0 t
    else
      match runeSize (String c t) with
      | O => replacementChar +:+ escapeFrom 0 t
      | S k =>
        match lineSeparator (String c t) with
        | Some esc => esc +:+ escapeFrom k t
        | None => takeBytes (S k) (String c t) +:+ escapeFrom k t
        end
      end
  end.
Proof. reflexivity. Qed.

Lemma escapeFrom_noLF (s : string) :
  forall skip, hasByte 10 (escapeFrom skip s) = false.
Proof.
  induction s as [|c t IH]; intros skip; [reflexivity |].
  rewrite escapeFrom_eq. destruct skip as [|k]; [| apply IH].
  destruct (byte_val c <? 128)%N eqn:Hc.
  - now rewrite hasByte_append, escapeByte_noLF, IH.
  - destruct (runeSize (String c t)) as [|k] eqn:Hr.
    + now rewrite hasByte_append, IH.
    + destruct (lineSeparator (String c t)) as [esc|] eqn:Hl.
      * now rewrite hasByte_append, (lineSeparator_noLF _ _ Hl), IH.
      * now rewrite hasByte_append, (runeSize_noLF _ _ _ Hc Hr), IH.
Qed.

Lemma quote_noLF (s : string) : hasByte 10 (quote s) = false.
Proof.
  unfold quote. now rewrite !hasByte_append, escapeFrom_noLF.
Qed.

Lemma string_of_uint_noLF (d : Decimal.uint) :
  hasByte 10 (NilEmpty.string_of_uint d) = false.
Proof. induction d; simpl; auto. Qed.

Lemma formatInt_noLF (n : Z) : hasByte 10 (formatInt n) = false.
Proof.
  unfold formatInt, NilZero.string_of_int, NilZero.string_of_uint.
  destruct (Z.to_int n) as [d|d]; destruct d; simpl; auto using string_of_uint_noLF.
Qed.

Lemma concat_noLF (sep : string) (ls : list string) :
  hasByte 10 sep = false ->
  Forall (fun s => hasByte 10 s = false) ls ->
  hasByte 10 (String.concat sep ls) = false.
Proof.
  intros Hsep. induction 1 as [|x ls Hx Hls IH]; [reflexivity |].
  destruct ls as [|y ls]; [exact Hx |].
  change (String.concat sep (x :: y :: ls))
    with (x +:+ sep +:+ String.concat sep (y :: ls)).
  now rewrite !hasByte_append, Hx, Hsep, IH.
Qed.

Lemma render_noLF (j : Json) : hasByte 10 (render j) = false.
Proof.
  induction j as [ |b|n|s|elems IH|members IH] using Json_induction.
  - reflexivity.
  - destruct b; reflexivity.
  - apply formatInt_noLF.
  - apply quote_noLF.
  - change (render (JArr elems))
      with ("[" +:+ String.concat "," (map render elems) +:+ "]").
    rewrite !hasByte_append, concat_noLF; [reflexivity | reflexivity |].
    apply Forall_map. exact IH.
  - change (render (JObj members))
      with ("{" +:+ String.concat ","
              (map (fun kv => quote (fst kv) +:+ ":" +:+ render (snd kv)) members)
            +:+ "}").
    rewrite !hasByte_append, concat_noLF; [reflexivity | reflexivity |].
    apply Forall_map. eapply Forall_impl; [exact IH |].
    intros [k v] Hv. cbn [fst snd] in *.
    now rewrite !hasByte_append, quote_noLF, Hv.
Qed.

Lemma linesFrom_line (a : string) :
  hasByte 10 a = false ->
  forall cur rest,
    linesFrom cur (a +:+ LF +:+ rest) = (cur +:+ a) :: linesFrom EmptyString rest.
Proof.
  induction a as [|c a IH]; intros Ha cur rest.
  - simpl. now rewrite append_nil_r.
  - simpl in Ha. apply orb_false_iff in Ha as [Hc Ha].
    change (String c a +:+ LF +:+ rest) with (String c (a +:+ LF +:+ rest)).
    cbn [linesFrom]. rewrite Hc, (IH Ha).
    rewrite append_assoc. reflexivity.
Qed.

Lemma lines_stream (docs : list Json) : lines (stream docs) = map render docs.
Proof.
  unfold lines. induction docs as [|j docs IH]; [reflexivity |].
  cbn [stream map]. rewrite (linesFrom_line _ (render_noLF j)). now rewrite IH.
Qed.

Lemma stream_hasLF (j : Json) (docs : list Json) :
  hasByte 10 (stream (j :: docs)) = true.
Proof.
  cbn [stream]. rewrite !hasByte_append. simpl. now rewrite orb_true_r.
Qed.

(** ** What the client reads *)

Lemma inflate_blocks (bs : list string) :
  forall acc tail,
    inflate acc (map GzBlock bs ++ tail) = inflate (acc +:+ joined bs) tail.
Proof.
  induction bs as [|b bs IH]; intros acc tail.
  - simpl. now rewrite append_nil_r.
  - simpl. rewrite IH. now rewrite append_assoc.
Qed.

Lemma gunzip_framed data body : framed data [] body -> gunzip body = Some data.
Proof.
  intros (bs & win & -> & Hj). unfold gunzip. rewrite inflate_blocks. simpl.
  rewrite Hj. now rewrite String.eqb_refl.
Qed.

Lemma gunzip_noted data m note body :
  framed data (Plain m :: note) body -> gunzip body = None.
Proof.
  intros (bs & win & -> & Hj). unfold gunzip. rewrite inflate_blocks. reflexivity.
Qed.

Lemma payload_blocks (bs : list string) (tail : list Chunk) :
  payload (map GzBlock bs ++ tail) = joined bs +:+ payload tail.
Proof.
  induction bs as [|b bs IH]; [reflexivity |].
  change (payload (map GzBlock (b :: bs) ++ tail))
    with (b +:+ payload (map GzBlock bs ++ tail)).
  rewrite IH. simpl. now rewrite append_assoc.
Qed.

Lemma payload_plain (note tail : list Chunk) :
  Forall (fun c => isPlain c = true) note ->
  payload (note ++ tail) = payload tail.
Proof.
  induction 1 as [|c note Hc _ IH]; [reflexivity |].
  destruct c; try discriminate. exact IH.
Qed.

Lemma payload_framed data note body :
  Forall (fun c => isPlain c = true) note ->
  framed data note body -> payload body = data.
Proof.
  intros Hn (bs & win & -> & Hj).
  change (payload (GzHeader :: map GzBlock bs ++ note ++ [GzFinal win; GzTrailer data]))
    with (payload (map GzBlock bs ++ note ++ [GzFinal win; GzTrailer data])).
  rewrite payload_blocks, (payload_plain _ _ Hn). simpl.
  now rewrite append_nil_r.
Qed.

Lemma last_framed data note body :
  framed data note body -> last body = Some (GzTrailer data).
Proof.
  intros (bs & win & -> & _).
  replace (GzHeader :: map GzBlock bs ++ note ++ [GzFinal win; GzTrailer data])
    with ((GzHeader :: map GzBlock bs ++ note ++ [GzFinal win]) ++ [GzTrailer data]).
  - apply last_snoc.
  - simpl. now rewrite <- !app_assoc.
Qed.

Lemma elem_of_framed data c body : framed data [c] body -> c ∈ body.
Proof.
  intros (bs & win & -> & _). apply elem_of_cons. right.
  apply elem_of_app. right. apply elem_of_cons. now left.
Qed.

(** Every result falls into a prefix of rows that stream and either
    nothing more or a failure. *)

Lemma split_rows (tail : option string) (rows : list DataRow) :
  exists good jss rest,
    rows = map Decoded good ++ rest /\ Forall2 marshalled good jss /\
    ((rest = [] /\ tail = None) \/
     exists msg k unread, failsWith tail rest msg k unread).
Proof.
  induction rows as [|row rows IH].
  - exists [], [], []. split; [reflexivity | split; [constructor |]].
    destruct tail as [e|].
    + right. do 3 eexists. apply fail_cursor. reflexivity.
    + now left.
  - destruct row as [vs|e].
    + destruct (sequence (map marshal vs)) as [js|e] eqn:Hv.
      * destruct IH as (good & jss & rest & -> & Hm & Hend).
        exists (vs :: good), (js :: jss), rest.
        split; [reflexivity | split; [now constructor | exact Hend]].
      * exists [], [], (Decoded vs :: rows).
        split; [reflexivity | split; [constructor |]].
        right. do 3 eexists. apply fail_encode. exact Hv.
    + exists [], [], (Undecodable e :: rows).
      split; [reflexivity | split; [constructor |]].
      right. do 3 eexists. apply fail_read.
Qed.

(** On a live connection, whatever the result holds, the compressed
    data of the body are the header record and one row record for each
    row of the prefix that streams. *)

Lemma run_live blockSize db w r sql rs :
  accepted r sql -> fresh w -> db sql = Ok rs ->
  exists good jss rest,
    rs_rows rs = map Decoded good ++ rest /\ Forall2 marshalled good jss /\
    ((rest = [] /\ rs_err rs = None) \/
     exists msg k unread, failsWith (rs_err rs) rest msg k unread) /\
    payload (rw_body (ex_w (queryHandler blockSize db w r))) =
    stream (headerRecord (map Name (rs_fields rs)) :: map rowRecord jss).
Proof.
  intros Hacc Hf Hdb.
  destruct (split_rows (rs_err rs) (rs_rows rs))
    as (good & jss & rest & Hrows & Hm & Hend).
  exists good, jss, rest. split; [exact Hrows | split; [exact Hm | split; [exact Hend |]]].
  destruct Hend as [[-> Herr] | (msg & k & unread & Hfail)].
  - rewrite app_nil_r in Hrows.
    destruct (run_clean blockSize db w r sql rs good jss Hacc Hf Hdb Hrows Herr Hm)
      as (F & _).
    now apply (payload_framed _ []).
  - destruct (run_failed blockSize db w r sql rs good jss rest msg k unread
                Hacc Hf Hdb Hrows Hm Hfail) as (F & _).
    apply (payload_framed _ [Plain (msg +:+ LF)]); [| exact F].
    now constructor.
Qed.

(** * The claims *)



(** C9. Each row record carries exactly one row.  For every query the
    database accepts, on a fresh response over a live connection, the
    compressed data of the body are the header record followed by one
    record per row of the result, up to the end of the result or to the
    first row that fails; the record written for a row with values
    [v1, v2, ...] is [{"rows":[[v1,v2,...]]}], and its [rows] array has
    length 1. *)
Theorem C9_one_row_per_record blockSize db w r sql rs :
  accepted r sql -> fresh w -> db sql = Ok rs ->
  exists good jss rest,
    rs_rows rs = map Decoded good ++ rest /\ Forall2 marshalled good jss /\
    ((rest = [] /\ rs_err rs = None) \/
     exists msg k unread, failsWith (rs_err rs) rest msg k unread) /\
    payload (rw_body (ex_w (queryHandler blockSize db w r))) =
      stream (headerRecord (map Name (rs_fields rs)) :: map rowRecord jss) /\
    length (map rowRecord jss) = length good /\
    Forall2 (fun js rec =>
               rec = JObj [("rows", JArr [JArr js])] /\
               recordRows rec = [JArr js] /\
               length (recordRows rec) = 1 /\
               render rec =
                 "{" +:+ quoted "rows" +:+ ":[[" +:+
                 String.concat "," (map render js) +:+ "]]}")
            jss (map rowRecord jss).
Proof.
  intros Hacc Hf Hdb.
  destruct (run_live blockSize db w r sql rs Hacc Hf Hdb)
    as (good & jss & rest & Hrows & Hm & Hend & Hpay).
  exists good, jss, rest.
  split; [exact Hrows | split; [exact Hm | split; [exact Hend | split; [exact Hpay |]]]].
  split; [rewrite length_map; symmetry; exact (Forall2_length _ _ _ Hm) |].
  clear. induction jss as [|js jss IH]; constructor; [| exact IH].
  repeat split. unfold rowRecord, quoted.
  cbn [render map String.concat fst snd].
  change (quote "rows") with (DQ +:+ "rows" +:+ DQ).
  now rewrite !append_assoc.
Qed.

Lemma C9_witness :
  exists good jss rest,
    rs_rows {| rs_fields := [field "n" 23];
               rs_rows := [Decoded [GInt 1]; Decoded [GInt 2]; Decoded [GInt 3]];
               rs_err := None |} = map Decoded good ++ rest /\
    Forall2 marshalled good jss /\
    ((rest = [] /\ @None string = None) \/
     exists msg k unread, failsWith None rest msg k unread) /\
    payload (rw_body (ex_w (queryHandler 4096 sampleDb freshWriter (post selectN)))) =
      stream (headerRecord ["n"] :: map rowRecord jss) /\
    length (map rowRecord jss) = length good /\
    Forall2 (fun js rec =>
               rec = JObj [("rows", JArr [JArr js])] /\
               recordRows rec = [JArr js] /\
               length (recordRows rec) = 1 /\
               render rec =
                 "{" +:+ quoted "rows" +:+ ":[[" +:+
                 String.concat "," (map render js) +:+ "]]}")
            jss (map rowRecord jss).
Proof.
  apply (C9_one_row_per_record 4096 sampleDb freshWriter (post selectN) selectN
           {| rs_fields := [field "n" 23];
              rs_rows := [Decoded [GInt 1]; Decoded [GInt 2]; Decoded [GInt 3]];
              rs_err := None |}).
  - split; reflexivity.
  - repeat split; reflexivity.
  - reflexivity.
Defined.

(** C7. The body of a successful response decompresses to a sequence
    of records each of which is a JSON object on a line of its own: no
    record contains a newline, so cutting the stream at the newlines
    gives back exactly the records; and the stream as a whole is not
    one JSON value (in particular not one array around the records). *)
Theorem C7_independent_top_level_values
        blockSize db w r sql rs (good : list (list GoValue)) (jss : list (list Json)) :
  accepted r sql -> fresh w -> db sql = Ok rs ->
  rs_rows rs = map Decoded good -> rs_err rs = None ->
  Forall2 marshalled good jss ->
  let docs := headerRecord (map Name (rs_fields rs)) :: map rowRecord jss in
  gunzip (rw_body (ex_w (queryHandler blockSize db w r))) = Some (stream docs) /\
  Forall (fun j => isObject j = true) docs /\
  Forall (fun j => hasByte 10 (render j) = false) docs /\
  lines (stream docs) = map render docs /\
  (forall j, render j <> stream docs).
Proof.
  intros Hacc Hf Hdb Hrows Herr Hm docs.
  destruct (run_clean blockSize db w r sql rs good jss Hacc Hf Hdb Hrows Herr Hm)
    as (F & _).
  split; [now apply gunzip_framed |].
  split; [| split; [| split]].
  - subst docs. constructor; [reflexivity |].
    apply Forall_map. apply Forall_forall. reflexivity.
  - apply Forall_forall. intros j _. apply render_noLF.
  - apply lines_stream.
  - intros j Heq. pose proof (render_noLF j) as Hn.
    rewrite Heq in Hn. subst docs. rewrite stream_hasLF in Hn. discriminate.
Qed.

Lemma C7_witness :
  lines (stream (headerRecord ["a"; "b"] :: map rowRecord [[JNum 1; JNum 2]]))
  = map render (headerRecord ["a"; "b"] :: map rowRecord [[JNum 1; JNum 2]]).
Proof.
  apply (C7_independent_top_level_values 4096 sampleDb freshWriter (post selectAB)
           selectAB {| rs_fields := [field "a" 23; field "b" 23];
                       rs_rows := [Decoded [GInt 1; GInt 2]]; rs_err := None |}
           [[GInt 1; GInt 2]] [[JNum 1; JNum 2]]).
  - split; reflexivity.
  - repeat split; reflexivity.
  - reflexivity.
  - reflexivity.
  - reflexivity.
  - repeat constructor.
Defined.

(** C5. The column names of the header record are the names of the
    field descriptions the database returned, in the same order and
    number: [getColumnNames] yields exactly those names, and the first
    record of the compressed data is the header record over them. *)
Theorem C5_columns_match_field_descriptions blockSize db w r sql rs :
  accepted r sql -> fresh w -> db sql = Ok rs ->
  let names := getColumnNames (rs_fields rs) in
  names = map Name (rs_fields rs) /\
  length names = length (rs_fields rs) /\
  (forall i, names !! i = Name <$> rs_fields rs !! i) /\
  headerRecord names =
    JObj [("columns", JArr (map JStr (map Name (rs_fields rs)))); ("rows", JArr [])] /\
  exists rest,
    payload (rw_body (ex_w (queryHandler blockSize db w r))) =
    render (headerRecord names) +:+ LF +:+ rest.
Proof.
  intros Hacc Hf Hdb names. subst names. rewrite getColumnNames_map.
  split; [reflexivity |]. split; [apply length_map |].
  split; [intros i; apply list_lookup_fmap |]. split; [reflexivity |].
  destruct (run_live blockSize db w r sql rs Hacc Hf Hdb)
    as (good & jss & rest & _ & _ & _ & Hpay).
  exists (stream (map rowRecord jss)). exact Hpay.
Qed.

Lemma C5_witness :
  getColumnNames [field "id" 23; field "label" 25] = ["id"; "label"].
Proof.
  apply (C5_columns_match_field_descriptions 4096 sampleDb freshWriter
           (post selectEmpty) selectEmpty
           {| rs_fields := [field "id" 23; field "label" 25];
              rs_rows := []; rs_err := None |}).
  - split; reflexivity.
  - repeat split; reflexivity.
  - reflexivity.
Defined.

(** C6. When the database rejects the query at submission, the handler
    answers with status 400 and the plain-text body [Query error: ]
    followed by the database's error text; no gzip writer is created,
    so no header record and no byte of the stream is written, and the
    response is not marked as gzip-encoded by the handler. *)
Theorem C6_rejected_query_gets_400 blockSize db w r sql e :
  accepted r sql -> fresh w -> db sql = Err e ->
  let ex := queryHandler blockSize db w r in
  rw_body (ex_w ex) = [Plain ("Query error: " +:+ e +:+ LF)] /\
  (exists h, rw_sent (ex_w ex) = Some (StatusBadRequest, h) /\
             h !! "Content-Type" = Some "text/plain; charset=utf-8" /\
             h !! "Content-Encoding" = rw_header w !! "Content-Encoding") /\
  400 <= StatusBadRequest < 600 /\
  ex_gz ex = None /\ ex_rows ex = None /\
  payload (rw_body (ex_w ex)) = EmptyString.
Proof.
  intros Hacc (Hs & Hb & Hc) Hdb ex. subst ex.
  rewrite (queryHandler_accepted _ _ _ _ _ Hacc), Hdb.
  destruct (http_Error_fresh w ("Query error: " +:+ e) StatusBadRequest Hc Hs)
    as (Eb & Es).
  unfold finish. cbn [ex_w ex_gz ex_rows]. rewrite Eb, Es, Hb, append_assoc.
  split; [reflexivity |]. split.
  - eexists. split; [reflexivity |]. split.
    + rewrite lookup_insert_ne by discriminate. apply lookup_insert_eq.
    + rewrite !lookup_insert_ne by discriminate.
      now rewrite lookup_delete_ne by discriminate.
  - unfold StatusBadRequest. repeat split; lia.
Qed.

Lemma C6_witness :
  rw_body (ex_w (queryHandler 4096 sampleDb freshWriter (post "SELEC 1")))
  = [Plain ("Query error: " +:+
            "ERROR: syntax error at or near SELEC (SQLSTATE 42601)" +:+ LF)].
Proof.
  apply (C6_rejected_query_gets_400 4096 sampleDb freshWriter (post "SELEC 1")
           "SELEC 1" "ERROR: syntax error at or near SELEC (SQLSTATE 42601)").
  - split; reflexivity.
  - repeat split; reflexivity.
  - reflexivity.
Defined.

(** A body object without a member that matches the field leaves the
    structure as it was. *)

Lemma decode_no_match (members : list (string * Json)) :
  Forall (fun kv => matchesQuery (fst kv) = false) members ->
  forall q, foldl decodeMember (q, None) members = (q, None).
Proof.
  induction 1 as [|kv members Hk _ IH]; intros q; [reflexivity |].
  cbn [foldl].
  replace (decodeMember (q, None) kv) with (q, @None string); [apply IH |].
  unfold decodeMember. now rewrite Hk.
Qed.

(** A body made as [framed] says holds no plain text but that of its
    note. *)

Lemma framed_plain data note body c :
  framed data note body -> c ∈ body -> isPlain c = true -> c ∈ note.
Proof.
  intros (bs & win & -> & _) Hin Hp.
  apply elem_of_cons in Hin as [-> | Hin]; [discriminate |].
  apply elem_of_app in Hin as [Hin | Hin].
  - apply list_elem_of_fmap in Hin as (b & -> & _). discriminate.
  - apply elem_of_app in Hin as [Hin | Hin]; [exact Hin |].
    apply elem_of_cons in Hin as [-> | Hin]; [discriminate |].
    apply list_elem_of_singleton in Hin as ->. discriminate.
Qed.

(** None of the texts the streaming part reports is that of a refused
    body. *)

Lemma failsWith_text tail rest msg k unread :
  failsWith tail rest msg k unread ->
  Plain ("Invalid request body" +:+ LF) <> Plain (msg +:+ LF).
Proof.
  intros H E. destruct H; simpl in E; discriminate.
Qed.

(** On a fresh response a request that was accepted is never answered
    as a refused body. *)

Lemma accepted_not_refused blockSize db w r sql :
  accepted r sql -> fresh w ->
  Plain ("Invalid request body" +:+ LF)
  ∉ rw_body (ex_w (queryHandler blockSize db w r)).
Proof.
  intros Hacc Hf Hin.
  destruct (db sql) as [rs|e] eqn:Hdb.
  - destruct (split_rows (rs_err rs) (rs_rows rs))
      as (good & jss & rest & Hrows & Hm & [[-> Herr] | (msg & k & unread & Hfail)]).
    + rewrite app_nil_r in Hrows.
      destruct (run_clean blockSize db w r sql rs good jss Hacc Hf Hdb Hrows Herr Hm)
        as (F & _).
      apply (framed_plain _ _ _ _ F) in Hin; [| reflexivity].
      now apply elem_of_nil in Hin.
    + destruct (run_failed blockSize db w r sql rs good jss rest msg k unread
                  Hacc Hf Hdb Hrows Hm Hfail) as (F & _).
      apply (framed_plain _ _ _ _ F) in Hin; [| reflexivity].
      apply list_elem_of_singleton in Hin.
      exact (failsWith_text _ _ _ _ _ Hfail Hin).
  - destruct Hf as (Hs & Hb & Hc).
    rewrite (queryHandler_accepted _ _ _ _ _ Hacc), Hdb in Hin.
    destruct (http_Error_fresh w ("Query error: " +:+ e) StatusBadRequest Hc Hs)
      as (Eb & _).
    unfold finish in Hin. cbn [ex_w] in Hin. rewrite Eb, Hb in Hin.
    apply list_elem_of_singleton in Hin. simpl in Hin. discriminate.
Qed.

(** On a fresh response the answer of the database is streamed under
    status 200, whatever the result holds. *)

Lemma accepted_streams blockSize db w r sql rs :
  accepted r sql -> fresh w -> db sql = Ok rs ->
  rw_sent (ex_w (queryHandler blockSize db w r)) = Some (StatusOK, jsonHeaders w).
Proof.
  intros Hacc Hf Hdb.
  destruct (split_rows (rs_err rs) (rs_rows rs))
    as (good & jss & rest & Hrows & Hm & [[-> Herr] | (msg & k & unread & Hfail)]).
  - rewrite app_nil_r in Hrows.
    now destruct (run_clean blockSize db w r sql rs good jss
                    Hacc Hf Hdb Hrows Herr Hm) as (_ & Hs & _).
  - now destruct (run_failed blockSize db w r sql rs good jss rest msg k unread
                    Hacc Hf Hdb Hrows Hm Hfail) as (_ & Hs & _).
Qed.

(** C10, counterexample.  Two bodies that are well-formed JSON and lack
    the [query] key: the empty array is refused as a malformed body,
    with status 400; and from the object whose member is named [QUERY]
    the decoder, which matches names in any letter case, takes the
    query text, so that it is this text and not the empty string that
    goes to the database. *)
Lemma C10_counterexample :
  (lacksQueryKey (JArr []) = true /\
   rw_body (ex_w (queryHandler 4096 sampleDb freshWriter postArray))
   = [Plain ("Invalid request body" +:+ LF)] /\
   fst <$> rw_sent (ex_w (queryHandler 4096 sampleDb freshWriter postArray))
   = Some StatusBadRequest) /\
  (lacksQueryKey (JObj [("QUERY", JStr selectN)]) = true /\
   accepted postUpperCase selectN /\
   ~ accepted postUpperCase EmptyString /\
   r_pulled <$> ex_rows (queryHandler 4096 sampleDb freshWriter postUpperCase)
   = Some 3).
Proof.
  split; [repeat split; vm_compute; reflexivity |].
  split; [reflexivity |]. split; [split; reflexivity |].
  split; [| vm_compute; reflexivity].
  intros [_ H]. vm_compute in H. discriminate.
Qed.

(** C10, as amended.  A POST request whose body is a JSON object none
    of whose member names matches [query] in any letter case (the
    empty object, for one) is not refused as a malformed body: it
    decodes without error to the empty query text, and the handler
    submits that text to the database, in that the exchange is the one
    of the request that names the empty text outright and depends on
    the database only by its answer to the empty text.  A rejection by
    the database is reported as a query error; on a fresh response that
    is status 400 with the body [Query error: ...], while an answer of
    the database is streamed under status 200, and in neither case does
    the body hold the text of a refused body. *)
Theorem C10_object_without_query_member_submits_empty_text
        blockSize db w r members :
  Method r = MethodPost -> Body r = Some (JObj members) ->
  Forall (fun kv => matchesQuery (fst kv) = false) members ->
  let ex := queryHandler blockSize db w r in
  accepted r EmptyString /\
  ex = queryHandler blockSize db w (emptyQuery r) /\
  (forall db', db' EmptyString = db EmptyString ->
               queryHandler blockSize db' w r = ex) /\
  (forall err, db EmptyString = Err err ->
     ex = finish (http_Error w ("Query error: " +:+ err) StatusBadRequest)) /\
  (fresh w ->
   (Plain ("Invalid request body" +:+ LF) ∉ rw_body (ex_w ex)) /\
   (forall err, db EmptyString = Err err ->
      rw_body (ex_w ex) = [Plain ("Query error: " +:+ err +:+ LF)] /\
      fst <$> rw_sent (ex_w ex) = Some StatusBadRequest) /\
   (forall rs, db EmptyString = Ok rs ->
      rw_sent (ex_w ex) = Some (StatusOK, jsonHeaders w))).
Proof.
  intros Hm Hb Hk ex.
  assert (Hacc : accepted r EmptyString).
  { split; [exact Hm |]. rewrite Hb. unfold Decode.
    now rewrite (decode_no_match _ Hk). }
  assert (Hacc' : accepted (emptyQuery r) EmptyString).
  { split; [exact Hm | reflexivity]. }
  assert (Herr : forall err, db EmptyString = Err err ->
            ex = finish (http_Error w ("Query error: " +:+ err) StatusBadRequest)).
  { intros err Hdb. subst ex.
    now rewrite (queryHandler_accepted _ _ _ _ _ Hacc), Hdb. }
  split; [exact Hacc |]. split; [| split; [| split; [exact Herr |]]].
  - subst ex. now rewrite (queryHandler_accepted _ _ _ _ _ Hacc),
                          (queryHandler_accepted _ _ _ _ _ Hacc').
  - intros db' Hdb'. subst ex.
    now rewrite (queryHandler_accepted _ _ _ _ _ Hacc),
                (queryHandler_accepted _ _ _ _ _ Hacc), Hdb'.
  - intros Hf. split; [exact (accepted_not_refused blockSize db w r _ Hacc Hf) |].
    split.
    + intros err Hdb. rewrite (Herr err Hdb).
      destruct Hf as (Hs & Hbd & Hc).
      destruct (http_Error_fresh w ("Query error: " +:+ err) StatusBadRequest Hc Hs)
        as (Eb & Es).
      unfold finish. cbn [ex_w]. rewrite Eb, Es, Hbd, append_assoc.
      split; reflexivity.
    + intros rs Hdb. exact (accepted_streams blockSize db w r _ rs Hacc Hf Hdb).
Qed.

Lemma C10_witness :
  rw_body (ex_w (queryHandler 4096 sampleDb freshWriter
                   {| Method := "POST"; Body := Some (JObj [("limit", JNum 5)]);
                      Ctx := context_Background |}))
  = [Plain ("Query error: " +:+
            "ERROR: syntax error at or near SELEC (SQLSTATE 42601)" +:+ LF)].
Proof.
  apply (C10_object_without_query_member_submits_empty_text 4096 sampleDb freshWriter
           {| Method := "POST"; Body := Some (JObj [("limit", JNum 5)]);
              Ctx := context_Background |}
           [("limit", JNum 5)]).
  - reflexivity.
  - reflexivity.
  - apply List.Forall_cons; [reflexivity | apply List.Forall_nil].
  - repeat split; reflexivity.
  - reflexivity.
Defined.

(** The cursor keeps the context it was opened under. *)

Lemma Encoder_Encode_rows blockSize v st :
  st_rows (snd (Encoder_Encode blockSize v st)) = st_rows st.
Proof.
  unfold Encoder_Encode. destruct (encodeLine v) as [line|e]; [| reflexivity].
  now destruct (gzip_Write blockSize line (st_gz st) (st_w st)) as [[err z] w'].
Qed.

Lemma Rows_Next_ctx r : r_ctx (snd (Rows_Next r)) = r_ctx r.
Proof.
  unfold Rows_Next. destruct (r_closed r); [reflexivity |].
  destruct (cancelled (r_ctx r) (r_pulled r)); [reflexivity |].
  now destruct (r_pending r).
Qed.

Lemma Rows_Values_ctx r : r_ctx (snd (Rows_Values r)) = r_ctx r.
Proof.
  unfold Rows_Values. destruct (r_closed r); [reflexivity |].
  now destruct (r_current r) as [[vs|e]|].
Qed.

Lemma rowLoop_ctx blockSize :
  forall fuel st,
    r_ctx (st_rows (snd (rowLoop blockSize fuel st))) = r_ctx (st_rows st).
Proof.
  induction fuel as [|f IH]; intros st; [reflexivity |].
  cbn [rowLoop]. unfold mbind at 1, M_bind at 1, rows_Next.
  pose proof (Rows_Next_ctx (st_rows st)) as Hn.
  destruct (Rows_Next (st_rows st)) as [more r1]. cbn [snd] in Hn.
  destruct more; [| exact Hn].
  unfold mbind at 1, M_bind at 1, rows_Values. cbn [st_rows st_w st_gz].
  pose proof (Rows_Values_ctx r1) as Hv.
  destruct (Rows_Values r1) as [res r2]. cbn [snd] in Hv.
  destruct res as [values|err].
  - unfold mbind at 1, M_bind at 1.
    pose proof (Encoder_Encode_rows blockSize
                  (GMap [("rows", GSlice [GSlice values])])
                  {| st_w := st_w st; st_gz := st_gz st; st_rows := r2 |}) as He.
    destruct (Encoder_Encode blockSize (GMap [("rows", GSlice [GSlice values])])
                {| st_w := st_w st; st_gz := st_gz st; st_rows := r2 |})
      as [fl st3].
    cbn [snd st_rows] in He.
    assert (H3 : r_ctx (st_rows st3) = r_ctx (st_rows st)) by congruence.
    destruct fl as [[e|]|].
    + exact H3.
    + rewrite IH. exact H3.
    + exact H3.
  - unfold mbind, M_bind, http_ErrorM, return_. cbn [snd st_rows]. congruence.
Qed.

Lemma streamResponse_ctx blockSize cols st :
  r_ctx (st_rows (snd (streamResponse blockSize cols st))) = r_ctx (st_rows st).
Proof.
  unfold streamResponse, writeHeaderRecord, mbind, M_bind.
  pose proof (Encoder_Encode_rows blockSize
                (GMap [("columns", GSlice (map GString cols)); ("rows", GSlice [])])
                st) as He.
  destruct (Encoder_Encode blockSize
              (GMap [("columns", GSlice (map GString cols)); ("rows", GSlice [])])
              st) as [fl st1].
  cbn [snd] in He.
  destruct fl as [[e|]|]; [now rewrite <- He | | now rewrite <- He].
  unfold mret, M_ret, streamRows.
  pose proof (rowLoop_ctx blockSize (S (length (r_pending (st_rows st1)))) st1) as Hl.
  destruct (rowLoop blockSize (S (length (r_pending (st_rows st1)))) st1)
    as [fl2 st2].
  cbn [snd] in Hl.
  destruct fl2 as [[]|]; [| cbn [snd]; congruence].
  unfold checkErr, mbind, M_bind, rows_Err, http_ErrorM, return_, mret, M_ret.
  destruct (Rows_Err (st_rows st2)); cbn [snd st_rows]; congruence.
Qed.

Lemma queryHandler_ctx blockSize db w r rows' :
  ex_rows (queryHandler blockSize db w r) = Some rows' ->
  r_ctx rows' = context_Background.
Proof.
  unfold queryHandler.
  destruct (negb (String.eqb (Method r) MethodPost)); [discriminate |].
  destruct (Decode (Body r) {| Query := EmptyString |}) as [q|e]; [| discriminate].
  unfold db_Query. cbn [cancelled context_Background cancelAt].
  destruct (db (Query q)) as [rs|e]; [| discriminate].
  unfold deferred.
  match goal with
  | |- context [gzip_Close ?b ?z ?w0] =>
      destruct (gzip_Close b z w0) as [[err gz'] w']
  end.
  cbn [ex_rows]. intros [= <-].
  unfold Rows_Close, Rows_fatal. cbn [r_ctx].
  now rewrite streamResponse_ctx.
Qed.

(** C8, counterexample.  The request is cancelled before the first row
    and the handler still pulls all three rows of the result. *)
Lemma C8_counterexample :
  ~ stopsWithinOneRow cancelledPost
      (queryHandler 4096 sampleDb freshWriter cancelledPost).
Proof.
  intros H.
  assert (E : exists rows',
             ex_rows (queryHandler 4096 sampleDb freshWriter cancelledPost)
             = Some rows' /\ r_pulled rows' = 3).
  { eexists. split; vm_compute; reflexivity. }
  destruct E as (rows' & E & Hp).
  specialize (H 0 rows' eq_refl E). lia.
Qed.

(** C8, as amended.  The handler submits the query under
    [context.Background()] and never consults the request's context:
    for every request, database and response writer the exchange is
    the same whatever cancellation signal the request carries, and the
    cursor of every exchange that opened one runs under the background
    context.  In particular, when the result has N rows that all
    decode and encode and the cursor reports no error, on a fresh
    response over a connection that takes every write, all N rows are
    pulled, also for a request that was cancelled before the first
    row. *)
Theorem C8_request_context_not_consulted blockSize db w r :
  (forall ctx,
     queryHandler blockSize db w (withContext ctx r) = queryHandler blockSize db w r) /\
  (forall ctx rows',
     ex_rows (queryHandler blockSize db w (withContext ctx r)) = Some rows' ->
     r_ctx rows' = context_Background) /\
  (forall ctx sql rs (good : list (list GoValue)) (jss : list (list Json)),
     accepted r sql -> fresh w -> db sql = Ok rs ->
     rs_rows rs = map Decoded good -> rs_err rs = None ->
     Forall2 marshalled good jss ->
     exists rows',
       ex_rows (queryHandler blockSize db w (withContext ctx r)) = Some rows' /\
       r_pulled rows' = length good).
Proof.
  split; [reflexivity |]. split.
  - intros ctx rows'. apply queryHandler_ctx.
  - intros ctx sql rs good jss Hacc Hf Hdb Hrows Herr Hm.
    change (queryHandler blockSize db w (withContext ctx r))
      with (queryHandler blockSize db w r).
    destruct (run_clean blockSize db w r sql rs good jss Hacc Hf Hdb Hrows Herr Hm)
      as (_ & _ & rows' & Hr & Hp & _).
    exists rows'. auto.
Qed.

Lemma C8_witness :
  exists rows',
    ex_rows (queryHandler 4096 sampleDb freshWriter
               (withContext {| cancelAt := Some 0 |} (post selectN))) = Some rows' /\
    r_pulled rows' = 3.
Proof.
  apply (proj2 (proj2 (C8_request_context_not_consulted 4096 sampleDb freshWriter
                         (post selectN)))
           {| cancelAt := Some 0 |} selectN
           {| rs_fields := [field "n" 23];
              rs_rows := [Decoded [GInt 1]; Decoded [GInt 2]; Decoded [GInt 3]];
              rs_err := None |}
           [[GInt 1]; [GInt 2]; [GInt 3]] [[JNum 1]; [JNum 2]; [JNum 3]]).
  - split; reflexivity.
  - repeat split; reflexivity.
  - reflexivity.
  - reflexivity.
  - reflexivity.
  - repeat constructor.
Defined.

(** Every failure after the header record takes the same course.  When,
    on a live connection, a row cannot be read, the encoder refuses a
    row, or the cursor reports an error at the end of the iteration,
    the handler pulls no further row and closes the cursor; the status
    stays 200 with the headers of the stream; and the text handed to
    [http.Error] goes uncompressed into the open body, ahead of the
    final block and the trailer that [gz.Close()] emits. *)

Lemma failure_text_in_body
      blockSize db w r sql rs (good : list (list GoValue)) (jss : list (list Json))
      rest msg k unread :
  accepted r sql -> fresh w -> db sql = Ok rs ->
  rs_rows rs = map Decoded good ++ rest ->
  Forall2 marshalled good jss ->
  failsWith (rs_err rs) rest msg k unread ->
  let ex := queryHandler blockSize db w r in
  (exists rows', ex_rows ex = Some rows' /\ r_pulled rows' = length good + k /\
                 r_pending rows' = unread /\ r_closed rows' = true) /\
  rw_sent (ex_w ex) = Some (StatusOK, jsonHeaders w) /\
  Plain (msg +:+ LF) ∈ rw_body (ex_w ex) /\
  framed (stream (headerRecord (map Name (rs_fields rs)) :: map rowRecord jss))
         [Plain (msg +:+ LF)] (rw_body (ex_w ex)).
Proof.
  intros Hacc Hf Hdb Hrows Hm Hfail ex.
  destruct (run_failed blockSize db w r sql rs good jss rest msg k unread
              Hacc Hf Hdb Hrows Hm Hfail)
    as (F & Hs & rows' & Hr & Hp & Hu & Hc & _).
  split; [exists rows'; auto |]. split; [exact Hs |].
  split; [| exact F]. eapply elem_of_framed. exact F.
Qed.

(** C2.  The code departs from the claim.  The second row of
    [measurements] holds NaN, which the encoder refuses after the
    header record and the first row were written.  The handler stops
    there, with one row left unread and the cursor closed, as the claim
    has it; but the call [http.Error(w, ..., 500)] of line 103 comes
    after the status 200 and the gzip headers went out, so the status
    500 never takes effect and the error text is written uncompressed
    into the open body, between the gzip member header and the final
    block: an error payload in the already-open stream. *)
Theorem C2_error_text_spliced_into_open_stream :
  let ex := queryHandler 4096 sampleDb freshWriter (post selectX) in
  let data := stream [headerRecord ["id"; "x"]; rowRecord [JNum 1; JNull]] in
  rw_body (ex_w ex) =
    [GzHeader;
     Plain ("Error encoding row: json: unsupported value: NaN" +:+ LF);
     GzFinal data; GzTrailer data] /\
  ~ noErrorPayload (rw_body (ex_w ex)) /\
  rw_sent (ex_w ex) = Some (StatusOK, jsonHeaders freshWriter) /\
  (r_pulled <$> ex_rows ex) = Some 2 /\
  (r_pending <$> ex_rows ex) = Some [Decoded [GInt 3; GNil]] /\
  (r_closed <$> ex_rows ex) = Some true.
Proof.
  assert (E : rw_body (ex_w (queryHandler 4096 sampleDb freshWriter (post selectX)))
              = [GzHeader;
                 Plain ("Error encoding row: json: unsupported value: NaN" +:+ LF);
                 GzFinal (stream [headerRecord ["id"; "x"]; rowRecord [JNum 1; JNull]]);
                 GzTrailer (stream [headerRecord ["id"; "x"];
                                    rowRecord [JNum 1; JNull]])])
    by (vm_compute; reflexivity).
  cbv zeta. rewrite E. split; [reflexivity |]. split.
  - intros H. inversion H as [|c l _ H2]; subst.
    inversion H2 as [|c' l' Hp _]; subst. discriminate.
  - repeat split; vm_compute; reflexivity.
Qed.

(** C3, counterexample.  The query fails with a division by zero after
    one row was streamed; the deferred [gz.Close()] still emits the
    final block and the trailer, over the header record and that row. *)
Lemma C3_counterexample :
  let body := rw_body (ex_w (queryHandler 4096 sampleDb freshWriter (post selectRatio))) in
  let data := stream [headerRecord ["?column?"]; rowRecord [JNum 10]] in
  body = [GzHeader;
          Plain ("Query error: ERROR: division by zero (SQLSTATE 22012)" +:+ LF);
          GzFinal data; GzTrailer data] /\
  ~ noTrailer body.
Proof.
  assert (E : rw_body (ex_w (queryHandler 4096 sampleDb freshWriter (post selectRatio)))
              = [GzHeader;
                 Plain ("Query error: ERROR: division by zero (SQLSTATE 22012)" +:+ LF);
                 GzFinal (stream [headerRecord ["?column?"]; rowRecord [JNum 10]]);
                 GzTrailer (stream [headerRecord ["?column?"]; rowRecord [JNum 10]])])
    by (vm_compute; reflexivity).
  cbv zeta. rewrite E. split; [reflexivity |].
  intros H. inversion H as [|c1 l1 _ H1]; subst.
  inversion H1 as [|c2 l2 _ H2]; subst.
  inversion H2 as [|c3 l3 _ H3]; subst.
  inversion H3 as [|c4 l4 Ht _]; subst. discriminate.
Qed.

(** C3, as amended.  When, on a live connection, the result fails after
    K rows were streamed (K at least 1), the stream is not cut short:
    the compressed data of the body are the header record followed by
    the K row records, and the deferred [gz.Close()] ends the body with
    the final block and then the gzip trailer computed over exactly
    that data, so that a terminating frame is emitted on the error path
    as it is on the successful one. *)
Theorem C3_failed_stream_is_closed_not_truncated
        blockSize db w r sql rs (good : list (list GoValue)) (jss : list (list Json))
        rest msg k unread :
  accepted r sql -> fresh w -> db sql = Ok rs ->
  rs_rows rs = map Decoded good ++ rest ->
  Forall2 marshalled good jss ->
  1 <= length good ->
  failsWith (rs_err rs) rest msg k unread ->
  let body := rw_body (ex_w (queryHandler blockSize db w r)) in
  let data := stream (headerRecord (map Name (rs_fields rs)) :: map rowRecord jss) in
  payload body = data /\
  lines data = render (headerRecord (map Name (rs_fields rs)))
               :: map render (map rowRecord jss) /\
  length jss = length good /\
  (exists pre win, body = pre ++ [GzFinal win; GzTrailer data]) /\
  last body = Some (GzTrailer data) /\
  ~ noTrailer body.
Proof.
  intros Hacc Hf Hdb Hrows Hm _ Hfail body data.
  destruct (run_failed blockSize db w r sql rs good jss rest msg k unread
              Hacc Hf Hdb Hrows Hm Hfail) as (F & _).
  split; [| split; [| split; [| split; [| split]]]].
  - apply (payload_framed _ [Plain (msg +:+ LF)]); [now constructor | exact F].
  - apply (lines_stream (_ :: _)).
  - symmetry. eapply Forall2_length. exact Hm.
  - destruct F as (bs & win & E & _).
    exists (GzHeader :: map GzBlock bs ++ [Plain (msg +:+ LF)]), win.
    subst body. rewrite E. cbn [app]. now rewrite <- !app_assoc.
  - eapply last_framed. exact F.
  - intros Hno. destruct F as (bs & win & E & _). subst body.
    rewrite E in Hno.
    apply Forall_cons in Hno as [_ Hno].
    apply Forall_app in Hno as [_ Hno].
    apply Forall_app in Hno as [_ Hno].
    apply Forall_cons in Hno as [_ Hno].
    apply Forall_cons in Hno as [Hno _]. discriminate.
Qed.

Lemma C3_witness :
  last (rw_body (ex_w (queryHandler 4096 sampleDb freshWriter (post selectRatio))))
  = Some (GzTrailer (stream (headerRecord ["?column?"] :: map rowRecord [[JNum 10]]))).
Proof.
  apply (C3_failed_stream_is_closed_not_truncated 4096 sampleDb freshWriter
           (post selectRatio) selectRatio
           {| rs_fields := [field "?column?" 23];
              rs_rows := [Decoded [GInt 10]];
              rs_err := Some "ERROR: division by zero (SQLSTATE 22012)" |}
           [[GInt 10]] [[JNum 10]] []
           ("Query error: " +:+ "ERROR: division by zero (SQLSTATE 22012)") 0 []).
  - split; reflexivity.
  - repeat split; reflexivity.
  - reflexivity.
  - reflexivity.
  - repeat constructor.
  - simpl. lia.
  - apply fail_cursor. reflexivity.
Defined.

(** C4, counterexample.  For the request body of the scenario the
    header record also carries an empty [rows] array, so the stream is
    not the one the claim gives. *)
Lemma C4_counterexample :
  gunzip (rw_body (ex_w (queryHandler 4096 sampleDb freshWriter (post selectAB))))
  = Some scenarioStream /\
  scenarioStream <> scenarioClaimed.
Proof.
  split; [vm_compute; reflexivity |].
  intros H. vm_compute in H. discriminate.
Qed.

(** C4, as amended.  The header record is the JSON object with the two
    members [columns], the list of column names, and [rows], an empty
    array: [{"columns":[...names...],"rows":[]}].  For the request body
    [{"query":"SELECT 1 AS a, 2 AS b"}], answered with columns a, b and
    the row 1, 2, the stream is [{"columns":["a","b"],"rows":[]}]
    followed by the one row record [{"rows":[[1,2]]}]. *)
Theorem C4_header_record_has_columns_and_empty_rows blockSize db w r rs :
  accepted r selectAB -> fresh w -> db selectAB = Ok rs ->
  map Name (rs_fields rs) = ["a"; "b"] ->
  rs_rows rs = [Decoded [GInt 1; GInt 2]] -> rs_err rs = None ->
  gunzip (rw_body (ex_w (queryHandler blockSize db w r))) = Some scenarioStream /\
  (forall columns,
     marshal (GMap [("columns", GSlice (map GString columns)); ("rows", GSlice [])])
     = Ok (JObj [("columns", JArr (map JStr columns)); ("rows", JArr [])]) /\
     render (headerRecord columns) =
       "{" +:+ quoted "columns" +:+ ":[" +:+ String.concat "," (map quote columns)
       +:+ "]," +:+ quoted "rows" +:+ ":[]}").
Proof.
  intros Hacc Hf Hdb Hn Hrows Herr. split.
  - destruct (run_clean blockSize db w r selectAB rs [[GInt 1; GInt 2]]
                [[JNum 1; JNum 2]] Hacc Hf Hdb Hrows Herr) as (F & _).
    { repeat constructor. }
    rewrite (gunzip_framed _ _ F), Hn. f_equal.
  - intros columns. split; [apply marshal_queryResponse |].
    unfold headerRecord, quoted.
    cbn [render map String.concat fst snd].
    rewrite map_map.
    change (quote "columns") with (DQ +:+ "columns" +:+ DQ).
    change (quote "rows") with (DQ +:+ "rows" +:+ DQ).
    rewrite !append_assoc. reflexivity.
Qed.

Lemma C4_witness :
  gunzip (rw_body (ex_w (queryHandler 4096 sampleDb freshWriter (post selectAB))))
  = Some scenarioStream.
Proof.
  apply (C4_header_record_has_columns_and_empty_rows 4096 sampleDb freshWriter
           (post selectAB)
           {| rs_fields := [field "a" 23; field "b" 23];
              rs_rows := [Decoded [GInt 1; GInt 2]]; rs_err := None |}).
  - split; reflexivity.
  - repeat split; reflexivity.
  - reflexivity.
  - reflexivity.
  - reflexivity.
  - reflexivity.
Defined.

(** * Further properties *)

(** ** The writers on any connection *)

Lemma plainCount_app (a b : list Chunk) :
  plainCount (a ++ b) = plainCount a + plainCount b.
Proof. unfold plainCount. now rewrite List.filter_app, length_app. Qed.

Lemma keeps_refl w : keeps w w.
Proof. intros s H. exact H. Qed.

Lemma keeps_trans w1 w2 w3 : keeps w1 w2 -> keeps w2 w3 -> keeps w1 w3.
Proof. intros H1 H2 s H. apply H2, H1, H. Qed.

Lemma quiet_refl w : quiet w w.
Proof. split; [apply keeps_refl | reflexivity]. Qed.

Lemma quiet_trans w1 w2 w3 : quiet w1 w2 -> quiet w2 w3 -> quiet w1 w3.
Proof.
  intros [K1 P1] [K2 P2]. split; [eapply keeps_trans; eassumption | congruence].
Qed.

(** A write sends the header block if none was sent, keeps one that
    was, and adds the chunk to the body or, on a dead connection,
    nothing. *)

Lemma rw_Write_any (c : Chunk) (w : ResponseWriter) :
  exists err w',
    rw_Write c w = (err, w') /\
    rw_header w' = rw_header w /\
    rw_sent w' = Some (match rw_sent w with
                       | Some s => s
                       | None => (StatusOK, rw_header w)
                       end) /\
    ((err = None /\ rw_body w' = rw_body w ++ [c]) \/
     (err <> None /\ rw_body w' = rw_body w /\ rw_conn w = Some 0)).
Proof.
  destruct w as [h s b [[|n]|]]; unfold rw_Write, WriteHeader; simpl;
    destruct s; simpl; do 2 eexists; (split; [reflexivity |]); simpl;
    repeat split; auto; right; repeat split; auto; discriminate.
Qed.

Lemma rw_Write_quiet (c : Chunk) (w : ResponseWriter) :
  isPlain c = false -> quiet w (snd (rw_Write c w)).
Proof.
  intros Hc. destruct (rw_Write_any c w) as (err & w' & E & Hh & Hs & Hb).
  rewrite E. simpl. split.
  - intros s H. rewrite Hs, H. reflexivity.
  - destruct Hb as [[_ ->] | (_ & -> & _)]; [| reflexivity].
    rewrite plainCount_app. unfold plainCount at 2. simpl. rewrite Hc. simpl. lia.
Qed.

Lemma http_Error_any (w : ResponseWriter) (msg : string) (code : nat) :
  keeps w (http_Error w msg code) /\
  plainCount (rw_body (http_Error w msg code)) <= plainCount (rw_body w) + 1.
Proof.
  unfold http_Error.
  set (w1 := WriteHeader code _).
  assert (K1 : keeps w w1 /\ rw_body w1 = rw_body w).
  { subst w1. destruct w as [h s b c]. unfold WriteHeader, Header_Set, Header_Del.
    simpl. destruct s; simpl; (split; [| reflexivity]);
      intros s0 Hs0; simpl in *; congruence. }
  destruct K1 as [K1 B1].
  destruct (rw_Write_any (Plain (msg +:+ LF)) w1) as (err & w' & E & Hh & Hs & Hb).
  rewrite E. simpl. split.
  - eapply keeps_trans; [exact K1 |]. intros s H. rewrite Hs, H. reflexivity.
  - destruct Hb as [[_ ->] | (_ & -> & _)]; rewrite B1.
    + rewrite plainCount_app. unfold plainCount at 2. simpl. lia.
    + lia.
Qed.

Section AnyConnection.

Variable blockSize : nat.

Lemma flate_Write_any (p : string) (z : GzipWriter) (w : ResponseWriter) :
  exists z' w',
    flate_Write blockSize p z w = (z', w') /\
    quiet w w' /\ rw_header w' = rw_header w /\
    gz_closed z' = gz_closed z /\ gz_wroteHeader z' = gz_wroteHeader z /\
    gz_digest z' = gz_digest z.
Proof.
  unfold flate_Write.
  destruct (blockSize <=? String.length (gz_window z +:+ p))%nat.
  - pose proof (rw_Write_quiet (GzBlock (gz_window z +:+ p)) w eq_refl) as Q.
    destruct (rw_Write_any (GzBlock (gz_window z +:+ p)) w)
      as (err & w' & E & Hh & _).
    rewrite E in *. simpl in Q.
    do 2 eexists. split; [reflexivity |]. simpl. auto.
  - do 2 eexists. split; [reflexivity |]. simpl. auto using quiet_refl.
Qed.

(** [gzip.Writer.Write] adds no plain text; what it reports is the
    writer's error state; without an error the data were taken. *)

Lemma gzip_Write_any (p : string) (z : GzipWriter) (w : ResponseWriter) :
  exists err z' w',
    gzip_Write blockSize p z w = (err, z', w') /\
    quiet w w' /\ rw_header w' = rw_header w /\
    gz_closed z' = gz_closed z /\ gz_err z' = err /\
    (err = None -> gz_digest z' = gz_digest z +:+ p) /\
    (gz_digest z' = gz_digest z \/ gz_digest z' = gz_digest z +:+ p) /\
    (gz_wroteHeader z = false -> gz_err z = None ->
     rw_sent w' = Some (match rw_sent w with
                        | Some s => s
                        | None => (StatusOK, rw_header w)
                        end)).
Proof.
  destruct z as [wh win dig cl [e|]]; unfold gzip_Write;
    cbn [gz_wroteHeader gz_window gz_digest gz_closed gz_err].
  - do 3 eexists. split; [reflexivity |].
    repeat split; auto using keeps_refl; discriminate.
  - destruct wh.
    + destruct (flate_Write_any p
                  {| gz_wroteHeader := true; gz_window := win;
                     gz_digest := dig +:+ p; gz_closed := cl;
                     gz_err := None |} w)
        as (z' & w' & E & Q & Hh & Hc & _ & Hd).
      cbn [gz_wroteHeader gz_window gz_digest gz_closed gz_err] in *.
      rewrite E. do 3 eexists. split; [reflexivity |].
      repeat split; try apply Q; auto; discriminate.
    + pose proof (rw_Write_quiet GzHeader w eq_refl) as Q1.
      destruct (rw_Write_any GzHeader w) as (err1 & w1 & E1 & Hh1 & Hs1 & _).
      rewrite E1 in *. simpl in Q1. destruct err1 as [e1|].
      * do 3 eexists. split; [reflexivity |].
        repeat split; try apply Q1; auto. discriminate.
      * destruct (flate_Write_any p
                    {| gz_wroteHeader := true; gz_window := win;
                       gz_digest := dig +:+ p; gz_closed := cl;
                       gz_err := None |} w1)
          as (z' & w' & E & Q & Hh & Hc & _ & Hd).
        cbn [gz_wroteHeader gz_window gz_digest gz_closed gz_err] in *.
        rewrite E. do 3 eexists. split; [reflexivity |].
        pose proof (quiet_trans _ _ _ Q1 Q) as Q2.
        repeat split; try apply Q2; auto; try congruence.
        intros _ _. destruct Q as [K _]. apply K. exact Hs1.
Qed.

(** [gzip.Writer.Close] adds no plain text and no data, and leaves the
    writer closed or failed. *)

Lemma gzip_Close_any (z : GzipWriter) (w : ResponseWriter) :
  exists err z' w',
    gzip_Close blockSize z w = (err, z', w') /\
    quiet w w' /\ gz_digest z' = gz_digest z /\
    (gz_closed z' = true \/ gz_err z' <> None).
Proof.
  destruct z as [wh win dig cl [e|]]; unfold gzip_Close;
    cbn [gz_wroteHeader gz_window gz_digest gz_closed gz_err].
  - do 3 eexists. split; [reflexivity |]. split; [apply quiet_refl |].
    split; [reflexivity |]. right. discriminate.
  - destruct cl.
    + do 3 eexists. split; [reflexivity |]. split; [apply quiet_refl |]. auto.
    + assert (A : exists errA zA wA,
                 (if wh then
                    (None, {| gz_wroteHeader := wh; gz_window := win; gz_digest := dig;
                              gz_closed := true; gz_err := None |}, w)
                  else gzip_Write blockSize EmptyString
                         {| gz_wroteHeader := wh; gz_window := win; gz_digest := dig;
                            gz_closed := true; gz_err := None |} w)
                 = (errA, zA, wA) /\
                 quiet w wA /\ gz_closed zA = true /\ gz_digest zA = dig /\
                 gz_err zA = errA).
      { destruct wh.
        - do 3 eexists. split; [reflexivity |]. simpl. auto using quiet_refl.
        - destruct (gzip_Write_any EmptyString
                      {| gz_wroteHeader := false; gz_window := win; gz_digest := dig;
                         gz_closed := true; gz_err := None |} w)
            as (err & z' & w' & E & Q & _ & Hc & He & _ & Hd & _).
          rewrite E. do 3 eexists. split; [reflexivity |]. simpl in *.
          rewrite append_nil_r in Hd. repeat split; try apply Q; auto.
          now destruct Hd. }
      destruct A as (errA & zA & wA & -> & QA & HcA & HdA & HeA).
      destruct errA as [e|].
      * do 3 eexists. split; [reflexivity |]. auto.
      * pose proof (rw_Write_quiet (GzFinal (gz_window zA)) wA eq_refl) as QB.
        destruct (rw_Write (GzFinal (gz_window zA)) wA) as [errB wB]. simpl in QB.
        pose proof (quiet_trans _ _ _ QA QB) as QAB.
        destruct errB as [e|].
        -- do 3 eexists. split; [reflexivity |]. simpl. auto.
        -- cbn [gz_digest].
           pose proof (rw_Write_quiet (GzTrailer (gz_digest zA)) wB eq_refl) as QC.
           destruct (rw_Write (GzTrailer (gz_digest zA)) wB) as [errC wC].
           simpl in QC.
           do 3 eexists. split; [reflexivity |]. simpl.
           split; [eapply quiet_trans; eassumption | auto].
Qed.

End AnyConnection.

(** ** The row loop on any connection *)

#[local] Arguments http_Error : simpl never.
#[local] Arguments render : simpl never.

Lemma encodeLine_row_inv vs line :
  encodeLine (GMap [("rows", GSlice [GSlice vs])]) = Ok line ->
  exists js, marshalled vs js /\ line = render (rowRecord js) +:+ LF.
Proof.
  unfold encodeLine. rewrite marshal_row. unfold marshalled.
  destruct (sequence (map marshal vs)) as [js|e]; [| discriminate].
  intros [= <-]. exists js. auto.
Qed.

Lemma Progress_nil st st' fl :
  st_gz st' = st_gz st ->
  keeps (st_w st) (st_w st') ->
  plainCount (rw_body (st_w st')) <=
    plainCount (rw_body (st_w st)) + match fl with Returned => 1 | Fall _ => 0 end ->
  r_pulled (st_rows st) <= r_pulled (st_rows st') <= r_pulled (st_rows st) + 1 ->
  r_ctx (st_rows st') = r_ctx (st_rows st) ->
  Progress st st' fl [] [].
Proof.
  intros Hz Hk Hp Hn Hc. constructor.
  - apply List.Forall2_nil.
  - now exists (r_pending (st_rows st)).
  - simpl. now rewrite Hz, append_nil_r.
  - simpl. lia.
  - simpl. lia.
  - exact Hc.
  - exact Hk.
  - exact Hp.
  - now rewrite Hz.
  - intros _. now rewrite Hz.
Qed.

Lemma rowLoop_any blockSize :
  forall fuel st,
  exists good jss,
    Progress st (snd (rowLoop blockSize fuel st)) (fst (rowLoop blockSize fuel st))
             good jss.
Proof.
  induction fuel as [|f IH]; intros st.
  - exists [], []. apply Progress_nil; simpl; auto using keeps_refl; lia.
  - destruct st as [w z r]. destruct r as [ctx fds pend tl cur er cl n].
    cbn [rowLoop]. unfold mbind, M_bind, rows_Next, Rows_Next. simpl.
    destruct cl.
    { exists [], []. apply Progress_nil; simpl; auto using keeps_refl; lia. }
    destruct (cancelled ctx n).
    { exists [], []. apply Progress_nil; simpl; auto using keeps_refl; lia. }
    destruct pend as [|row rest].
    { exists [], []. apply Progress_nil; simpl; auto using keeps_refl; lia. }
    simpl. unfold rows_Values, Rows_Values. simpl.
    destruct row as [vs|e]; simpl.
    2:{ exists [], []. destruct (http_Error_any w ("Error reading row: " +:+ e)
                                  StatusInternalServerError) as [K P].
        apply Progress_nil; simpl; auto; lia. }
    unfold Encoder_Encode.
    destruct (encodeLine (GMap [("rows", GSlice [GSlice vs])])) as [line|e] eqn:El;
      simpl.
    2:{ exists [], []. destruct (http_Error_any w ("Error encoding row: " +:+ e)
                                  StatusInternalServerError) as [K P].
        apply Progress_nil; simpl; auto; lia. }
    destruct (encodeLine_row_inv _ _ El) as (js & Hm & ->).
    destruct (gzip_Write_any blockSize (render (rowRecord js) +:+ LF) z w)
      as (err & z' & w' & E & [K Pq] & Hh & Hc & He & Hd1 & Hd2 & _).
    rewrite E. simpl. destruct err as [e|].
    + simpl.
      destruct (http_Error_any w' ("Error encoding row: " +:+ e)
                  StatusInternalServerError) as [K' P'].
      destruct Hd2 as [Hd2 | Hd2].
      * exists [], []. constructor; simpl.
        -- apply List.Forall2_nil.
        -- now eexists.
        -- now rewrite Hd2, append_nil_r.
        -- lia.
        -- lia.
        -- reflexivity.
        -- eapply keeps_trans; eassumption.
        -- eapply Nat.le_trans; [exact P' | lia].
        -- exact Hc.
        -- discriminate.
      * exists [vs], [js]. constructor; simpl.
        -- apply List.Forall2_cons; [exact Hm | apply List.Forall2_nil].
        -- now eexists.
        -- rewrite Hd2. unfold LF. now rewrite ?append_nil_r.
        -- lia.
        -- lia.
        -- reflexivity.
        -- eapply keeps_trans; eassumption.
        -- eapply Nat.le_trans; [exact P' | lia].
        -- exact Hc.
        -- discriminate.
    + specialize (Hd1 eq_refl).
      destruct (IH {| st_w := w'; st_gz := z';
                      st_rows := {| r_ctx := ctx; r_fields := fds; r_pending := rest;
                                    r_tail := tl; r_current := Some (Decoded vs);
                                    r_err := er; r_closed := false;
                                    r_pulled := S n |} |})
        as (good & jss & [G1 [rest' G2] G3 G4 G5 G6 G7 G8 G9 G10]).
      cbn [st_w st_gz st_rows r_pulled r_ctx r_pending] in *.
      exists (vs :: good), (js :: jss).
      constructor; cbn [st_w st_gz st_rows r_pulled r_ctx r_pending length map stream].
      * now apply List.Forall2_cons.
      * exists rest'. now rewrite G2.
      * rewrite G3, Hd1. rewrite !append_assoc. reflexivity.
      * lia.
      * lia.
      * exact G6.
      * eapply keeps_trans; eassumption.
      * lia.
      * congruence.
      * intros Hf Hz. apply G10; [exact Hf | congruence].
Qed.

(** ** Whole runs on any connection *)

Section AnyRun.

Variable blockSize : nat.
Variable db : Database.

Lemma writeHeaderRecord_any w rs cols :
  rw_sent w = None ->
  exists fl st1,
    writeHeaderRecord blockSize cols (begin w rs) = (fl, st1) /\
    rw_sent (st_w st1) = Some (StatusOK, jsonHeaders w) /\
    st_rows st1 = openRows context_Background rs /\
    gz_closed (st_gz st1) = false /\
    plainCount (rw_body (st_w st1)) <=
      plainCount (rw_body w) + match fl with Returned => 1 | Fall _ => 0 end /\
    ((fl = Fall tt /\ gz_err (st_gz st1) = None /\
      gz_digest (st_gz st1) = stream [headerRecord cols]) \/
     (fl = Returned /\
      (gz_digest (st_gz st1) = EmptyString \/
       gz_digest (st_gz st1) = stream [headerRecord cols]))).
Proof.
  intros Hs.
  destruct (gzip_Write_any blockSize (render (headerRecord cols) +:+ LF)
              gzip_NewWriter (st_w (begin w rs)))
    as (err & z' & w' & E & [K Pq] & Hh & Hc & He & Hd1 & Hd2 & Hsent).
  specialize (Hsent eq_refl eq_refl).
  assert (Hsent' : rw_sent w' = Some (StatusOK, jsonHeaders w)).
  { rewrite Hsent. cbn [begin st_w Header_Set rw_sent rw_header]. now rewrite Hs. }
  assert (Hline : stream [headerRecord cols] = render (headerRecord cols) +:+ LF).
  { unfold stream. now rewrite append_nil_r. }
  unfold writeHeaderRecord, mbind, M_bind, Encoder_Encode, encodeLine.
  rewrite marshal_queryResponse.
  cbn [begin st_w st_gz st_rows] in *. rewrite E.
  assert (Hb : plainCount (rw_body w') = plainCount (rw_body w)) by exact Pq.
  destruct err as [e|].
  - destruct (http_Error_any w' ("Error encoding response: " +:+ e)
                StatusInternalServerError) as [K' P'].
    do 2 eexists. split; [reflexivity |].
    cbn [st_w st_gz st_rows]. split; [apply K'; exact Hsent' |].
    split; [reflexivity |]. split; [exact Hc |]. split; [lia |].
    right. split; [reflexivity |]. rewrite Hline.
    destruct Hd2 as [-> | ->]; [now left | now right].
  - do 2 eexists. split; [reflexivity |].
    cbn [st_w st_gz st_rows]. split; [exact Hsent' |].
    split; [reflexivity |]. split; [exact Hc |]. split; [lia |].
    left. split; [reflexivity |]. split; [exact He |].
    rewrite Hline. apply Hd1. reflexivity.
Qed.

Lemma checkErr_any st :
  exists fl st',
    checkErr st = (fl, st') /\ st_gz st' = st_gz st /\ st_rows st' = st_rows st /\
    keeps (st_w st) (st_w st') /\
    plainCount (rw_body (st_w st')) <=
      plainCount (rw_body (st_w st)) + match fl with Returned => 1 | Fall _ => 0 end.
Proof.
  unfold checkErr, mbind, M_bind, rows_Err.
  destruct (Rows_Err (st_rows st)) as [e|].
  - destruct (http_Error_any (st_w st) ("Query error: " +:+ e)
                StatusInternalServerError) as [K P].
    do 2 eexists. split; [reflexivity |]. simpl. auto.
  - do 2 eexists. split; [reflexivity |]. simpl.
    repeat split; auto using keeps_refl. lia.
Qed.

(** What every run of the streaming part leaves, whatever the
    connection and the result do. *)

Lemma streamResponse_any w rs cols :
  rw_sent w = None ->
  exists good jss st',
    snd (streamResponse blockSize cols (begin w rs)) = st' /\
    rw_sent (st_w st') = Some (StatusOK, jsonHeaders w) /\
    gz_closed (st_gz st') = false /\
    plainCount (rw_body (st_w st')) <= plainCount (rw_body w) + 1 /\
    Forall2 marshalled good jss /\
    (exists rest, rs_rows rs = map Decoded good ++ rest) /\
    ((gz_digest (st_gz st') = EmptyString /\ good = [] /\
      r_pulled (st_rows st') = 0) \/
     gz_digest (st_gz st') = stream (headerRecord cols :: map rowRecord jss)) /\
    length good <= r_pulled (st_rows st') <= length good + 1 /\
    r_ctx (st_rows st') = context_Background.
Proof.
  intros Hs.
  destruct (writeHeaderRecord_any w rs cols Hs)
    as (fl1 & st1 & E1 & S1 & R1 & C1 & P1 & D1).
  unfold streamResponse, mbind at 1, M_bind at 1. rewrite E1.
  destruct D1 as [(-> & Z1 & D1) | (-> & D1)].
  - unfold mbind at 1, M_bind at 1. unfold streamRows.
    set (fuel := S (length (r_pending (st_rows st1)))).
    destruct (rowLoop_any blockSize fuel st1)
      as (good & jss & [G1 [rest G2] G3 G4 G5 G6 G7 G8 G9 G10]).
    destruct (rowLoop blockSize fuel st1) as [fl2 st2].
    cbn [fst snd] in *. rewrite R1 in G2, G4, G5, G6.
    cbn [openRows r_pending r_pulled r_ctx] in *.
    exists good, jss.
    assert (D2 : gz_digest (st_gz st2) = stream (headerRecord cols :: map rowRecord jss)).
    { rewrite G3, D1. cbn [stream]. now rewrite append_nil_r, !append_assoc. }
    destruct fl2 as [[]|].
    + destruct (checkErr_any st2) as (fl3 & st3 & E3 & Z3 & R3 & K3 & P3).
      rewrite E3. cbn [snd]. exists st3. split; [reflexivity |]. rewrite Z3, R3.
      split; [apply K3, G7, S1 |]. split; [congruence |].
      split; [destruct fl3; lia |]. split; [exact G1 |].
      split; [now exists rest |]. split; [right; exact D2 |].
      split; [lia | exact G6].
    + cbn [snd]. exists st2. split; [reflexivity |].
      split; [apply G7, S1 |]. split; [congruence |].
      split; [lia |]. split; [exact G1 |].
      split; [now exists rest |]. split; [right; exact D2 |].
      split; [lia | exact G6].
  - cbn [snd]. exists [], [], st1. split; [reflexivity |].
    split; [exact S1 |]. split; [exact C1 |]. split; [exact P1 |].
    split; [apply List.Forall2_nil |]. split; [now exists (rs_rows rs) |].
    rewrite R1. cbn [openRows r_pulled r_ctx length map].
    split; [| split; [lia | reflexivity]].
    destruct D1 as [D1 | D1]; [left; auto | right; exact D1].
Qed.

Lemma deferred_any st :
  exists gz,
    ex_gz (deferred blockSize st) = Some gz /\
    ex_rows (deferred blockSize st) = Some (Rows_Close (st_rows st)) /\
    quiet (st_w st) (ex_w (deferred blockSize st)) /\
    gz_digest gz = gz_digest (st_gz st) /\
    (gz_closed gz = true \/ gz_err gz <> None).
Proof.
  destruct (gzip_Close_any blockSize (st_gz st) (st_w st))
    as (err & z' & w' & E & Q & Hd & Hc).
  unfold deferred. rewrite E. cbn [ex_gz ex_rows ex_w]. exists z'. auto.
Qed.

(** Every run for a query that the database accepted, whatever the
    connection and the result do. *)

Lemma run_any w r sql rs :
  accepted r sql -> db sql = Ok rs -> rw_sent w = None ->
  exists good jss gz rows',
    ex_gz (queryHandler blockSize db w r) = Some gz /\
    ex_rows (queryHandler blockSize db w r) = Some rows' /\
    rw_sent (ex_w (queryHandler blockSize db w r)) = Some (StatusOK, jsonHeaders w) /\
    plainCount (rw_body (ex_w (queryHandler blockSize db w r))) <=
      plainCount (rw_body w) + 1 /\
    (gz_closed gz = true \/ gz_err gz <> None) /\
    r_closed rows' = true /\ r_ctx rows' = context_Background /\
    Forall2 marshalled good jss /\
    (exists rest, rs_rows rs = map Decoded good ++ rest) /\
    ((gz_digest gz = EmptyString /\ good = [] /\ r_pulled rows' = 0) \/
     gz_digest gz =
       stream (headerRecord (map Name (rs_fields rs)) :: map rowRecord jss)) /\
    length good <= r_pulled rows' <= length good + 1.
Proof.
  intros Hacc Hdb Hs.
  rewrite (queryHandler_accepted _ _ _ _ _ Hacc), Hdb.
  destruct (streamResponse_any w rs (map Name (rs_fields rs)) Hs)
    as (good & jss & st' & -> & S1 & C1 & P1 & G1 & G2 & D & N & X).
  destruct (deferred_any st') as (gz & Egz & Erows & [K Pq] & Hd & Hc).
  exists good, jss, gz, (Rows_Close (st_rows st')).
  split; [exact Egz |]. split; [exact Erows |].
  split; [apply K, S1 |]. split; [lia |]. split; [exact Hc |].
  split; [reflexivity |]. split; [exact X |]. split; [exact G1 |].
  split; [exact G2 |]. rewrite Hd. split; [exact D | exact N].
Qed.

End AnyRun.

(** * Properties of the handler beyond the claims *)

(** X1. Once the database has accepted the query, the response goes out
    with status 200, [Content-Encoding: gzip] and
    [Content-Type: application/json], the other headers being those set
    before the handler ran.  This holds whatever happens afterwards (a
    row that cannot be read or encoded, a cursor error, a connection
    that fails at any write): the status 500 and the [text/plain]
    content type that the later [http.Error] calls ask for never reach
    the client. *)
Theorem X1_status_200_committed_with_header_record blockSize db w r sql rs :
  accepted r sql -> db sql = Ok rs -> rw_sent w = None ->
  exists h,
    rw_sent (ex_w (queryHandler blockSize db w r)) = Some (StatusOK, h) /\
    h !! "Content-Encoding" = Some "gzip" /\
    h !! "Content-Type" = Some "application/json" /\
    (forall k, k <> "Content-Encoding" -> k <> "Content-Type" ->
               h !! k = rw_header w !! k).
Proof.
  intros Hacc Hdb Hs.
  destruct (run_any blockSize db w r sql rs Hacc Hdb Hs)
    as (good & jss & gz & rows' & _ & _ & Hsent & _).
  exists (jsonHeaders w). split; [exact Hsent |]. unfold jsonHeaders.
  split; [| split].
  - rewrite lookup_insert_ne by discriminate. apply lookup_insert_eq.
  - apply lookup_insert_eq.
  - intros k H1 H2. now rewrite !lookup_insert_ne by congruence.
Qed.

Lemma X1_witness :
  exists h,
    rw_sent (ex_w (queryHandler 4096 sampleDb failingWriter (post selectRatio)))
    = Some (StatusOK, h) /\
    h !! "Content-Encoding" = Some "gzip" /\
    h !! "Content-Type" = Some "application/json" /\
    (forall k, k <> "Content-Encoding" -> k <> "Content-Type" ->
               h !! k = rw_header failingWriter !! k).
Proof.
  apply (X1_status_200_committed_with_header_record 4096 sampleDb failingWriter
           (post selectRatio) selectRatio
           {| rs_fields := [field "?column?" 23];
              rs_rows := [Decoded [GInt 10]];
              rs_err := Some "ERROR: division by zero (SQLSTATE 22012)" |}).
  - split; reflexivity.
  - reflexivity.
  - reflexivity.
Defined.

(** X2. Release on every path.  Once the database has accepted the
    query, every way out of the handler (the end of the result, any of
    the four early returns, on a live or a failing connection) leaves
    the cursor closed, and the gzip writer closed unless a write on it
    had failed. *)
Theorem X2_cursor_and_gzip_released_on_every_path blockSize db w r sql rs :
  accepted r sql -> db sql = Ok rs -> rw_sent w = None ->
  exists gz rows',
    ex_gz (queryHandler blockSize db w r) = Some gz /\
    ex_rows (queryHandler blockSize db w r) = Some rows' /\
    r_closed rows' = true /\
    (gz_closed gz = true \/ gz_err gz <> None).
Proof.
  intros Hacc Hdb Hs.
  destruct (run_any blockSize db w r sql rs Hacc Hdb Hs)
    as (good & jss & gz & rows' & Hg & Hr & _ & _ & Hc & Hcl & _).
  exists gz, rows'. auto.
Qed.

Lemma X2_witness :
  exists gz rows',
    ex_gz (queryHandler 4096 sampleDb failingWriter (post selectX)) = Some gz /\
    ex_rows (queryHandler 4096 sampleDb failingWriter (post selectX)) = Some rows' /\
    r_closed rows' = true /\
    (gz_closed gz = true \/ gz_err gz <> None).
Proof.
  apply (X2_cursor_and_gzip_released_on_every_path 4096 sampleDb failingWriter
           (post selectX) selectX
           {| rs_fields := [field "id" 23; field "x" 701];
              rs_rows := [Decoded [GInt 1; GNil]; Decoded [GInt 2; GFloatNaN];
                          Decoded [GInt 3; GNil]];
              rs_err := None |}).
  - split; reflexivity.
  - reflexivity.
  - reflexivity.
Defined.

(** X3. Whatever the connection does, what the handler hands to the
    gzip writer is either nothing (the gzip member header could not be
    written) or the header record followed by one row record for each
    row of an initial segment of the result, in the order of the
    result: no row is skipped, repeated or reordered, and nothing but
    records is ever compressed. *)
Theorem X3_compressed_data_are_header_and_a_prefix_of_rows
        blockSize db w r sql rs :
  accepted r sql -> db sql = Ok rs -> rw_sent w = None ->
  exists good jss rest gz,
    ex_gz (queryHandler blockSize db w r) = Some gz /\
    rs_rows rs = map Decoded good ++ rest /\
    Forall2 marshalled good jss /\
    (gz_digest gz = EmptyString \/
     gz_digest gz =
       stream (headerRecord (map Name (rs_fields rs)) :: map rowRecord jss)).
Proof.
  intros Hacc Hdb Hs.
  destruct (run_any blockSize db w r sql rs Hacc Hdb Hs)
    as (good & jss & gz & rows' & Hg & _ & _ & _ & _ & _ & _ & Hm & [rest Hp] & Hd & _).
  exists good, jss, rest, gz.
  split; [exact Hg |]. split; [exact Hp |]. split; [exact Hm |].
  destruct Hd as [(Hd & _) | Hd]; [now left | now right].
Qed.

Lemma X3_witness :
  exists good jss rest gz,
    ex_gz (queryHandler 8 sampleDb failingWriter (post selectN)) = Some gz /\
    [Decoded [GInt 1]; Decoded [GInt 2]; Decoded [GInt 3]] = map Decoded good ++ rest /\
    Forall2 marshalled good jss /\
    (gz_digest gz = EmptyString \/
     gz_digest gz = stream (headerRecord ["n"] :: map rowRecord jss)).
Proof.
  apply (X3_compressed_data_are_header_and_a_prefix_of_rows 8 sampleDb failingWriter
           (post selectN) selectN
           {| rs_fields := [field "n" 23];
              rs_rows := [Decoded [GInt 1]; Decoded [GInt 2]; Decoded [GInt 3]];
              rs_err := None |}).
  - split; reflexivity.
  - reflexivity.
  - reflexivity.
Defined.

(** X4. No read-ahead.  Whatever the connection and the result do, the
    handler pulls a row only after the record of the row before it was
    taken by the gzip writer: at the end the number of rows pulled
    exceeds the number of row records handed to the compressor by at
    most one, and no row is pulled when the header record was not
    taken. *)
Theorem X4_at_most_one_row_pulled_beyond_records blockSize db w r sql rs :
  accepted r sql -> db sql = Ok rs -> rw_sent w = None ->
  exists jss gz rows',
    ex_gz (queryHandler blockSize db w r) = Some gz /\
    ex_rows (queryHandler blockSize db w r) = Some rows' /\
    ((gz_digest gz = EmptyString /\ r_pulled rows' = 0) \/
     (gz_digest gz =
        stream (headerRecord (map Name (rs_fields rs)) :: map rowRecord jss) /\
      length jss <= r_pulled rows' <= length jss + 1)).
Proof.
  intros Hacc Hdb Hs.
  destruct (run_any blockSize db w r sql rs Hacc Hdb Hs)
    as (good & jss & gz & rows' & Hg & Hr & _ & _ & _ & _ & _ & Hm & _ & Hd & Hn).
  exists jss, gz, rows'. split; [exact Hg |]. split; [exact Hr |].
  rewrite <- (Forall2_length _ _ _ Hm).
  destruct Hd as [(Hd & _ & H0) | Hd]; [left; auto | right; auto].
Qed.

Lemma X4_witness :
  exists jss gz rows',
    ex_gz (queryHandler 4096 sampleDb freshWriter (post selectX)) = Some gz /\
    ex_rows (queryHandler 4096 sampleDb freshWriter (post selectX)) = Some rows' /\
    ((gz_digest gz = EmptyString /\ r_pulled rows' = 0) \/
     (gz_digest gz = stream (headerRecord ["id"; "x"] :: map rowRecord jss) /\
      length jss <= r_pulled rows' <= length jss + 1)).
Proof.
  apply (X4_at_most_one_row_pulled_beyond_records 4096 sampleDb freshWriter
           (post selectX) selectX
           {| rs_fields := [field "id" 23; field "x" 701];
              rs_rows := [Decoded [GInt 1; GNil]; Decoded [GInt 2; GFloatNaN];
                          Decoded [GInt 3; GNil]];
              rs_err := None |}).
  - split; reflexivity.
  - reflexivity.
  - reflexivity.
Defined.

(** X5. For every request and every answer of the database, on any
    connection, the handler writes at most one error text into the
    response: each of its [http.Error] calls is followed by [return]. *)
Theorem X5_at_most_one_error_text blockSize db w r :
  unsent w ->
  plainCount (rw_body (ex_w (queryHandler blockSize db w r))) <= 1.
Proof.
  intros [Hs Hb].
  assert (H0 : plainCount (rw_body w) = 0) by now rewrite Hb.
  unfold queryHandler.
  destruct (negb (String.eqb (Method r) MethodPost)) eqn:Hm.
  { destruct (http_Error_any w "Invalid request method" StatusMethodNotAllowed)
      as [_ P]. unfold finish. cbn [ex_w]. lia. }
  destruct (Decode (Body r) {| Query := EmptyString |}) as [[sql]|e] eqn:Hd.
  2:{ destruct (http_Error_any w "Invalid request body" StatusBadRequest) as [_ P].
      unfold finish. cbn [ex_w]. lia. }
  cbn [Query]. unfold db_Query. cbn [cancelled context_Background cancelAt].
  destruct (db sql) as [rs|e] eqn:Hdb.
  2:{ destruct (http_Error_any w ("Query error: " +:+ e) StatusBadRequest) as [_ P].
      unfold finish. cbn [ex_w]. lia. }
  assert (Hacc : accepted r sql).
  { split; [| exact Hd]. apply negb_false_iff in Hm. now apply String.eqb_eq. }
  destruct (run_any blockSize db w r sql rs Hacc Hdb Hs)
    as (good & jss & gz & rows' & _ & _ & _ & P & _).
  rewrite (queryHandler_accepted _ _ _ _ _ Hacc), Hdb in P.
  unfold Rows_FieldDescriptions. cbn [openRows r_fields].
  rewrite getColumnNames_map. unfold begin in P. lia.
Qed.

Lemma X5_witness :
  plainCount (rw_body (ex_w (queryHandler 4096 sampleDb freshWriter (post selectRatio))))
  <= 1.
Proof.
  apply (X5_at_most_one_error_text 4096 sampleDb freshWriter (post selectRatio)).
  split; reflexivity.
Defined.

(** X6. If the connection is already gone when the handler starts to
    stream, the first write (the gzip member header, on encoding the
    header record) fails and the handler returns at once: nothing is
    written to the body, nothing was taken by the compressor, no row is
    pulled, and the cursor is closed with the whole result unread. *)
Theorem X6_dead_connection_pulls_no_row blockSize db w r sql rs :
  accepted r sql -> db sql = Ok rs -> unsent w -> rw_conn w = Some 0 ->
  rw_body (ex_w (queryHandler blockSize db w r)) = [] /\
  exists gz rows',
    ex_gz (queryHandler blockSize db w r) = Some gz /\
    gz_digest gz = EmptyString /\ gz_err gz = Some "write: broken pipe" /\
    ex_rows (queryHandler blockSize db w r) = Some rows' /\
    r_pulled rows' = 0 /\ r_pending rows' = rs_rows rs /\ r_closed rows' = true.
Proof.
  intros Hacc Hdb [Hs Hb] Hc.
  rewrite (queryHandler_accepted _ _ _ _ _ Hacc), Hdb.
  destruct w as [h s b c]. cbn [rw_sent rw_body rw_conn] in *. subst.
  unfold streamResponse, writeHeaderRecord, mbind, M_bind, Encoder_Encode, encodeLine.
  rewrite marshal_queryResponse.
  unfold begin, gzip_Write, gzip_NewWriter, rw_Write, WriteHeader, Header_Set.
  cbn [st_w st_gz st_rows gz_err gz_wroteHeader rw_sent rw_conn rw_header rw_body
       fst snd].
  unfold http_ErrorM, http_Error, rw_Write, WriteHeader, Header_Set, Header_Del.
  cbn [st_w st_gz st_rows gz_err gz_wroteHeader rw_sent rw_conn rw_header rw_body
       fst snd].
  unfold deferred, gzip_Close.
  cbn [st_w st_gz st_rows gz_err gz_wroteHeader rw_sent rw_conn rw_header rw_body
       fst snd ex_w ex_gz ex_rows].
  split; [reflexivity |].
  do 2 eexists. repeat split; reflexivity.
Qed.

Lemma X6_witness :
  rw_body (ex_w (queryHandler 4096 sampleDb deadWriter (post selectN))) = [].
Proof.
  apply (X6_dead_connection_pulls_no_row 4096 sampleDb deadWriter (post selectN)
           selectN {| rs_fields := [field "n" 23];
                      rs_rows := [Decoded [GInt 1]; Decoded [GInt 2]; Decoded [GInt 3]];
                      rs_err := None |}).
  - split; reflexivity.
  - reflexivity.
  - split; reflexivity.
  - reflexivity.
Defined.

(** ** Requests that do not reach the database *)

(** X7. A request whose method is not exactly [POST] (the comparison is
    case sensitive) is answered 405 with the plain text
    [Invalid request method]; the body is not decoded and the database
    is not queried, so the answer is the same whatever they hold, and
    no cursor or gzip writer is created. *)
Theorem X7_other_methods_get_405 blockSize db w r :
  Method r <> MethodPost -> fresh w ->
  let ex := queryHandler blockSize db w r in
  rw_body (ex_w ex) = [Plain ("Invalid request method" +:+ LF)] /\
  (exists h, rw_sent (ex_w ex) = Some (StatusMethodNotAllowed, h) /\
             h !! "Content-Type" = Some "text/plain; charset=utf-8" /\
             h !! "Content-Encoding" = rw_header w !! "Content-Encoding") /\
  ex_gz ex = None /\ ex_rows ex = None /\
  (forall blockSize' db' r',
     Method r' = Method r -> queryHandler blockSize' db' w r' = ex).
Proof.
  intros Hm (Hs & Hb & Hc) ex.
  assert (Hn : negb (String.eqb (Method r) MethodPost) = true).
  { apply negb_true_iff. now apply String.eqb_neq. }
  assert (E : forall bs' db' r', Method r' = Method r ->
              queryHandler bs' db' w r' =
              finish (http_Error w "Invalid request method" StatusMethodNotAllowed)).
  { intros bs' db' r' Hr. unfold queryHandler. now rewrite Hr, Hn. }
  subst ex. rewrite (E blockSize db r eq_refl).
  destruct (http_Error_fresh w "Invalid request method" StatusMethodNotAllowed Hc Hs)
    as (Eb & Es).
  unfold finish. cbn [ex_w ex_gz ex_rows]. rewrite Eb, Es, Hb.
  split; [reflexivity |]. split.
  - eexists. split; [reflexivity |]. split.
    + rewrite lookup_insert_ne by discriminate. apply lookup_insert_eq.
    + rewrite !lookup_insert_ne by discriminate.
      now rewrite lookup_delete_ne by discriminate.
  - split; [reflexivity |]. split; [reflexivity |]. exact E.
Qed.

Lemma X7_witness :
  rw_body (ex_w (queryHandler 4096 sampleDb freshWriter
                   {| Method := "post"; Body := Some (JObj [("query", JStr selectN)]);
                      Ctx := context_Background |}))
  = [Plain ("Invalid request method" +:+ LF)].
Proof.
  apply (X7_other_methods_get_405 4096 sampleDb freshWriter
           {| Method := "post"; Body := Some (JObj [("query", JStr selectN)]);
              Ctx := context_Background |}).
  - discriminate.
  - repeat split; reflexivity.
Defined.

(** The decoder's verdict on the members of an object. *)

Lemma decode_members (members : list (string * Json)) :
  forall q err,
    snd (foldl decodeMember (q, err) members) = None <->
    err = None /\ existsb badMember members = false.
Proof.
  induction members as [|[k v] members IH]; intros q err.
  - simpl. tauto.
  - cbn [foldl existsb]. unfold decodeMember at 2, badMember at 1. cbn [fst snd].
    destruct (matchesQuery k); cbn [andb].
    + destruct v; cbn [isStringOrNull negb orb]; rewrite IH;
        try tauto; destruct err; split; intros [H1 H2]; try discriminate; auto.
    + cbn [orb]. apply IH.
Qed.

Lemma Decode_rejects (body : option Json) (q0 : SQLQuery) :
  (exists e, Decode body q0 = Err e) <-> rejectedBody body.
Proof.
  destruct body as [[ |b|n|s|elems|members]|]; cbn [Decode rejectedBody];
    try (split; [trivial | intros _; eexists; reflexivity]).
  - split; [intros [e H]; discriminate | intros []].
  - pose proof (decode_members members q0 None) as H.
    destruct (foldl decodeMember (q0, None) members) as [q [e|]]; cbn [snd] in H.
    + split; [intros _ | intros _; eexists; reflexivity].
      destruct (existsb badMember members); [reflexivity |].
      destruct H as [_ H]. discriminate H. auto.
    + split; [intros [e H']; discriminate |].
      destruct H as [H _]. destruct (H eq_refl) as [_ ->]. discriminate.
Qed.

(** X8. A POST whose body the decoder refuses is answered 400 with the
    plain text [Invalid request body], and the database is not queried.
    The decoder refuses exactly the bodies that hold no JSON value, a
    value that is neither an object nor [null], or an object in which
    some member matching [query] (in any letter case) is neither a
    string nor [null], wherever that member stands and whatever the
    other members are. *)
Theorem X8_refused_body_gets_400 blockSize db w r :
  Method r = MethodPost -> rejectedBody (Body r) -> fresh w ->
  let ex := queryHandler blockSize db w r in
  rw_body (ex_w ex) = [Plain ("Invalid request body" +:+ LF)] /\
  (exists h, rw_sent (ex_w ex) = Some (StatusBadRequest, h)) /\
  ex_gz ex = None /\ ex_rows ex = None /\
  (forall blockSize' db', queryHandler blockSize' db' w r = ex) /\
  (forall body q0, (exists e, Decode body q0 = Err e) <-> rejectedBody body).
Proof.
  intros Hm Hrej (Hs & Hb & Hc) ex.
  destruct (proj2 (Decode_rejects (Body r) {| Query := EmptyString |}) Hrej)
    as [e Hd].
  assert (E : forall bs' db',
              queryHandler bs' db' w r =
              finish (http_Error w "Invalid request body" StatusBadRequest)).
  { intros bs' db'. unfold queryHandler. now rewrite Hm, Hd. }
  subst ex. rewrite (E blockSize db).
  destruct (http_Error_fresh w "Invalid request body" StatusBadRequest Hc Hs)
    as (Eb & Es).
  unfold finish. cbn [ex_w ex_gz ex_rows]. rewrite Eb, Es, Hb.
  split; [reflexivity |]. split; [eexists; reflexivity |].
  split; [reflexivity |]. split; [reflexivity |]. split; [exact E |].
  apply Decode_rejects.
Qed.

Lemma X8_witness :
  rw_body (ex_w (queryHandler 4096 sampleDb freshWriter
                   {| Method := "POST";
                      Body := Some (JObj [("query", JStr selectN); ("Query", JNum 7)]);
                      Ctx := context_Background |}))
  = [Plain ("Invalid request body" +:+ LF)].
Proof.
  apply (X8_refused_body_gets_400 4096 sampleDb freshWriter
           {| Method := "POST";
              Body := Some (JObj [("query", JStr selectN); ("Query", JNum 7)]);
              Ctx := context_Background |}).
  - reflexivity.
  - reflexivity.
  - repeat split; reflexivity.
Defined.

Lemma decode_skips (post : list (string * Json)) :
  Forall (fun kv => matchesQuery (fst kv) = false \/ snd kv = JNull) post ->
  forall acc, foldl decodeMember acc post = acc.
Proof.
  induction 1 as [|[k v] post Hkv _ IH]; intros [q err]; [reflexivity |].
  cbn [foldl]. rewrite <- (IH (q, err)) at 2. f_equal.
  unfold decodeMember. cbn [fst snd] in *.
  destruct Hkv as [-> | ->]; [reflexivity |].
  now destruct (matchesQuery k).
Qed.

(** X9. The last string wins.  In a body object without a refused
    member, the query text submitted is the string of the last member
    whose name matches [query] in any letter case and whose value is a
    string; matching members that hold [null] and members with other
    names do not change it. *)
Theorem X9_last_query_string_is_submitted r pre k s post :
  Method r = MethodPost ->
  Body r = Some (JObj (pre ++ (k, JStr s) :: post)) ->
  existsb badMember pre = false ->
  matchesQuery k = true ->
  Forall (fun kv => matchesQuery (fst kv) = false \/ snd kv = JNull) post ->
  accepted r s /\
  forall blockSize db w,
    queryHandler blockSize db w r =
    match db s with
    | Err err => finish (http_Error w ("Query error: " +:+ err) StatusBadRequest)
    | Ok rs =>
        deferred blockSize
          (snd (streamResponse blockSize (map Name (rs_fields rs)) (begin w rs)))
    end.
Proof.
  intros Hm Hb Hpre Hk Hpost.
  assert (Hacc : accepted r s).
  { split; [exact Hm |]. rewrite Hb. unfold Decode. rewrite foldl_app.
    pose proof (decode_members pre {| Query := EmptyString |} None) as H.
    destruct (foldl decodeMember ({| Query := EmptyString |}, None) pre) as [q e].
    cbn [snd] in H. destruct H as [_ H]. rewrite (H (conj eq_refl Hpre)).
    cbn [foldl]. unfold decodeMember at 2. cbn [fst snd]. rewrite Hk.
    now rewrite (decode_skips post Hpost). }
  split; [exact Hacc |]. intros blockSize db w.
  apply queryHandler_accepted. exact Hacc.
Qed.

Lemma X9_witness :
  accepted {| Method := "POST";
              Body := Some (JObj [("query", JStr selectAB); ("limit", JNum 5);
                                  ("QUERY", JStr selectN); ("Query", JNull)]);
              Ctx := context_Background |} selectN.
Proof.
  apply (X9_last_query_string_is_submitted
           {| Method := "POST";
              Body := Some (JObj [("query", JStr selectAB); ("limit", JNum 5);
                                  ("QUERY", JStr selectN); ("Query", JNull)]);
              Ctx := context_Background |}
           [("query", JStr selectAB); ("limit", JNum 5)] "QUERY" selectN
           [("Query", JNull)]).
  - reflexivity.
  - reflexivity.
  - reflexivity.
  - reflexivity.
  - apply List.Forall_cons; [right; reflexivity | apply List.Forall_nil].
Defined.

(** ** What the client can tell *)

(** X10. On a live connection, once the database has accepted the
    query, the body is a well-formed gzip stream exactly when the whole
    result was streamed without failure: every row decoded and encoded
    and the cursor reported no error.  In every other case the body
    holds an uncompressed error text and does not decompress. *)
Theorem X10_body_is_gzip_iff_result_streamed_whole blockSize db w r sql rs :
  accepted r sql -> fresh w -> db sql = Ok rs ->
  (exists data, gunzip (rw_body (ex_w (queryHandler blockSize db w r))) = Some data)
  <->
  (rs_err rs = None /\
   exists good jss, rs_rows rs = map Decoded good /\ Forall2 marshalled good jss).
Proof.
  intros Hacc Hf Hdb. split.
  - intros [data Hg].
    destruct (split_rows (rs_err rs) (rs_rows rs))
      as (good & jss & rest & Hrows & Hm & [[-> Herr] | (msg & k & unread & Hfail)]).
    + rewrite app_nil_r in Hrows. split; [exact Herr |]. now exists good, jss.
    + destruct (run_failed blockSize db w r sql rs good jss rest msg k unread
                  Hacc Hf Hdb Hrows Hm Hfail) as (F & _).
      rewrite (gunzip_noted _ _ _ _ F) in Hg. discriminate.
  - intros (Herr & good & jss & Hrows & Hm).
    destruct (run_clean blockSize db w r sql rs good jss Hacc Hf Hdb Hrows Herr Hm)
      as (F & _).
    eexists. apply (gunzip_framed _ _ F).
Qed.

Lemma X10_witness :
  (exists data,
     gunzip (rw_body (ex_w (queryHandler 4096 sampleDb freshWriter (post selectEmpty))))
     = Some data)
  <->
  (@None string = None /\
   exists good jss, @nil DataRow = map Decoded good /\ Forall2 marshalled good jss).
Proof.
  apply (X10_body_is_gzip_iff_result_streamed_whole 4096 sampleDb freshWriter
           (post selectEmpty) selectEmpty
           {| rs_fields := [field "id" 23; field "label" 25];
              rs_rows := []; rs_err := None |}).
  - split; reflexivity.
  - repeat split; reflexivity.
  - reflexivity.
Defined.

(** X11. A query that the database accepts at submission but that fails
    before its first row (the error shows at the first [rows.Next()])
    is not answered with an error status: the response is 200 with the
    gzip headers, the header record is compressed as for any result,
    the text [Query error: ...] is written uncompressed into the body,
    and the body does not decompress. *)
Theorem X11_error_before_first_row_is_answered_200 blockSize db w r sql rs e :
  accepted r sql -> fresh w -> db sql = Ok rs ->
  rs_rows rs = [] -> rs_err rs = Some e ->
  let ex := queryHandler blockSize db w r in
  rw_sent (ex_w ex) = Some (StatusOK, jsonHeaders w) /\
  Plain ("Query error: " +:+ e +:+ LF) ∈ rw_body (ex_w ex) /\
  payload (rw_body (ex_w ex)) = stream [headerRecord (map Name (rs_fields rs))] /\
  gunzip (rw_body (ex_w ex)) = None.
Proof.
  intros Hacc Hf Hdb Hrows Herr ex.
  destruct (run_failed blockSize db w r sql rs [] [] [] ("Query error: " +:+ e) 0 []
              Hacc Hf Hdb Hrows (List.Forall2_nil _))
    as (F & Hs & _).
  { apply fail_cursor. exact Herr. }
  cbn [map] in F. rewrite append_assoc in F.
  split; [exact Hs |]. split; [eapply elem_of_framed; exact F |].
  split.
  - apply (payload_framed _ [Plain ("Query error: " +:+ e +:+ LF)]); [| exact F].
    now constructor.
  - eapply gunzip_noted. exact F.
Qed.

Lemma X11_witness :
  gunzip (rw_body (ex_w (queryHandler 4096 lateErrorDb freshWriter (post selectN))))
  = None.
Proof.
  apply (X11_error_before_first_row_is_answered_200 4096 lateErrorDb freshWriter
           (post selectN) selectN
           {| rs_fields := [field "total" 20]; rs_rows := [];
              rs_err := Some "ERROR: canceling statement due to statement timeout (SQLSTATE 57014)" |}
           "ERROR: canceling statement due to statement timeout (SQLSTATE 57014)").
  - split; reflexivity.
  - repeat split; reflexivity.
  - reflexivity.
  - reflexivity.
  - reflexivity.
Defined.

(** ** Start-up *)

(** X12. [main] starts the server exactly when [DATABASE_URL] is set to
    a non-empty value and the pool connects to that URL; it then
    listens on [:8080] with the one route [/query], serving from that
    pool.  When the variable is unset or empty the process ends without
    any attempt to connect, and when the connection fails it ends
    without listening. *)
Theorem X12_server_starts_iff_configured_and_connected env connect serveErr :
  let trace := fst (main env connect serveErr) in
  ((exists addr pattern pool, ListenAndServe addr pattern pool ∈ trace) <->
   (exists url pool, env !! "DATABASE_URL" = Some url /\ url <> EmptyString /\
                     connect url = Ok pool)) /\
  (forall addr pattern pool,
     ListenAndServe addr pattern pool ∈ trace ->
     addr = ":8080" /\ pattern = "/query" /\
     connect (os_Getenv env "DATABASE_URL") = Ok pool) /\
  ((env !! "DATABASE_URL" = None \/ env !! "DATABASE_URL" = Some EmptyString) ->
   trace = [Fatal "DATABASE_URL environment variable is required"]).
Proof.
  cbv zeta. unfold main, os_Getenv.
  destruct (env !! "DATABASE_URL") as [url|] eqn:He.
  - destruct (String.eqb_spec url EmptyString) as [-> | Hne].
    + cbn. split; [split |]; [| | split].
      * intros (a & p & d & H). apply list_elem_of_singleton in H. discriminate.
      * intros (u & d & [= <-] & Hu & _). now destruct Hu.
      * intros a p d H. apply list_elem_of_singleton in H. discriminate.
      * reflexivity.
    + destruct (connect url) as [pool|e] eqn:Hc; cbn.
      * split; [split |]; [| | split].
        -- intros _. exists url, pool. auto.
        -- intros _. do 3 eexists. apply elem_of_cons. right. apply elem_of_cons.
           right. apply elem_of_cons. now left.
        -- intros a p d H. repeat (apply elem_of_cons in H as [H | H]; try discriminate).
           ++ injection H as -> -> ->. auto.
           ++ apply elem_of_nil in H. destruct H.
        -- intros [H | H]; [discriminate |]. injection H as ->. now destruct Hne.
      * split; [split |]; [| | split].
        -- intros (a & p & d & H).
           repeat (apply elem_of_cons in H as [H | H]; try discriminate).
           apply elem_of_nil in H. destruct H.
        -- intros (u & d & [= <-] & _ & Hd). rewrite Hc in Hd. discriminate.
        -- intros a p d H.
           repeat (apply elem_of_cons in H as [H | H]; try discriminate).
           apply elem_of_nil in H. destruct H.
        -- intros [H | H]; [discriminate |]. injection H as ->. now destruct Hne.
  - cbn. split; [split |]; [| | split].
    + intros (a & p & d & H). apply list_elem_of_singleton in H. discriminate.
    + intros (u & d & [=] & _).
    + intros a p d H. apply list_elem_of_singleton in H. discriminate.
    + reflexivity.
Qed.

(** X13. [main] never returns and never closes the pool: every path
    through it ends in [log.Fatal], which ends the process without
    running the deferred [db.Close()]; a failure to connect is reported
    as [Unable to connect to database: ] followed by the error. *)
Theorem X13_main_always_ends_in_fatal_and_never_closes_pool env connect serveErr :
  snd (main env connect serveErr) = None /\
  (PoolClose ∉ fst (main env connect serveErr)) /\
  (exists msg, last (fst (main env connect serveErr)) = Some (Fatal msg)) /\
  (forall url e,
     env !! "DATABASE_URL" = Some url -> url <> EmptyString -> connect url = Err e ->
     fst (main env connect serveErr) =
     [Connect url; Fatal ("Unable to connect to database: " +:+ e +:+ LF)]).
Proof.
  unfold main, os_Getenv.
  destruct (env !! "DATABASE_URL") as [url|] eqn:He.
  - destruct (String.eqb_spec url EmptyString) as [-> | Hne].
    + cbn. split; [reflexivity |]. split; [| split].
      * intros H. apply list_elem_of_singleton in H. discriminate.
      * eexists. reflexivity.
      * intros u e [= <-] Hu. now destruct Hu.
    + destruct (connect url) as [pool|e] eqn:Hc; cbn.
      * split; [reflexivity |]. split; [| split].
        -- intros H. repeat (apply elem_of_cons in H as [H | H]; try discriminate).
           apply elem_of_nil in H. destruct H.
        -- eexists. reflexivity.
        -- intros u e [= <-] _ Hd. rewrite Hc in Hd. discriminate.
      * split; [reflexivity |]. split; [| split].
        -- intros H. repeat (apply elem_of_cons in H as [H | H]; try discriminate).
           apply elem_of_nil in H. destruct H.
        -- eexists. reflexivity.
        -- intros u e' [= <-] _ Hd. rewrite Hc in Hd. injection Hd as ->. reflexivity.
  - cbn. split; [reflexivity |]. split; [| split].
    + intros H. apply list_elem_of_singleton in H. discriminate.
    + eexists. reflexivity.
    + intros u e [=].
Qed.

Lemma X12_witness :
  exists addr pattern pool,
    ListenAndServe addr pattern pool
    ∈ fst (main sampleEnv sampleConnect "http: Server closed").
Proof.
  apply (proj1 (X12_server_starts_iff_configured_and_connected
                  sampleEnv sampleConnect "http: Server closed")).
  exists "postgres://localhost/app", sampleDb.
  split; [reflexivity |]. split; [discriminate | reflexivity].
Defined.

Lemma X13_witness :
  snd (main sampleEnv sampleConnect "http: Server closed") = None.
Proof.
  apply (X13_main_always_ends_in_fatal_and_never_closes_pool
           sampleEnv sampleConnect "http: Server closed").
Defined.
